(** * NudgeAI: the rule-based task extractor and the chat agent

    A shallow embedding of [backend/task_extractor.py] and
    [backend/ai_agent.py], and the properties of the two classifiers and of
    the action executor that operate on the persisted task collection.

    Conventions of the embedding.
    - A Python [str] is a [string]; the functions [lower] and [take] act on
      characters, which is exact for ASCII text (the keyword tables are all
      ASCII).  Glyphs outside ASCII that occur in literals of the source are
      kept as their UTF-8 bytes; they are never lower-cased nor sliced.
    - [None] is [None]; an optional text is an [option string].  The
      arguments of [extract_task] are texts, as every caller passes them; on
      a text, [x or ""] is [x].
    - [datetime.now()] is an explicit argument [now]; the module-level list
      [confirmed_tasks] and the file [data/tasks.json] are explicit states
      that are passed in and returned.
    - A raised exception is a value [Raise e] of the result type.
    - A lone surrogate, which [json.load] builds from an escape such as
      [\ud83d], is kept as the three bytes 237, 160..191, 128..191 of its
      generalised UTF-8 form; no well-formed text contains these.
    - The file system is part of the state of the file: whether it can be
      opened for reading and for writing.  A write that was opened fails
      only where [json.dump] does. *)

From Stdlib Require Import String Ascii List Bool ZArith NArith Lia DecimalString.
Import ListNotations.

Local Open Scope string_scope.
Local Open Scope Z_scope.

(** ** Python strings *)

Module PyStr.

(** [c.lower()] on one ASCII character. *)
Definition lower_char (c : ascii) : ascii :=
  let n := N_of_ascii c in
  if ((65 <=? n) && (n <=? 90))%N then ascii_of_N (n + 32) else c.

(** [s.lower()] *)
Fixpoint lower (s : string) : string :=
  match s with
  | EmptyString => EmptyString
  | String c s' => String (lower_char c) (lower s')
  end.

(** [w in t], the substring test. *)
Fixpoint py_in (w t : string) : bool :=
  if String.prefix w t then true
  else match t with
       | EmptyString => false
       | String _ t' => py_in w t'
       end.

(** [s[:n]] *)
Fixpoint take (n : nat) (s : string) : string :=
  match n, s with
  | S n', String c s' => String c (take n' s')
  | _, _ => EmptyString
  end.

(** [any(w in t for w in ws)] *)
Definition any_in (ws : list string) (t : string) : bool :=
  existsb (fun w => py_in w t) ws.

(** [str(z)] for an integer. *)
Definition dec (z : Z) : string := NilZero.string_of_int (Z.to_int z).

End PyStr.

Infix "<in>" := PyStr.py_in (at level 35, no associativity).

(** ** The clock: [datetime] and [timedelta(days=n)] *)

Module Clock.

Record datetime := mk_datetime {
  year : Z; month : Z; day : Z;
  hour : Z; minute : Z; second : Z; microsecond : Z
}.

Definition is_leap (y : Z) : bool :=
  (y mod 4 =? 0) && (negb (y mod 100 =? 0) || (y mod 400 =? 0)).

Definition days_before_year (y : Z) : Z :=
  let p := y - 1 in p * 365 + p / 4 - p / 100 + p / 400.

Definition DAYS_IN_MONTH : list Z :=
  [-1; 31; 28; 31; 30; 31; 30; 31; 31; 30; 31; 30; 31].

Definition DAYS_BEFORE_MONTH : list Z :=
  [-1; 0; 31; 59; 90; 120; 151; 181; 212; 243; 273; 304; 334].

Definition tbl (t : list Z) (m : Z) : Z := nth (Z.to_nat m) t 0.

Definition days_before_month (y m : Z) : Z :=
  tbl DAYS_BEFORE_MONTH m + (if (2 <? m) && is_leap y then 1 else 0).

(** [date.toordinal()]: 1 for 0001-01-01. *)
Definition ymd2ord (y m d : Z) : Z :=
  days_before_year y + days_before_month y m + d.

(** [date.fromordinal(n)], the inverse of [ymd2ord]. *)
Definition ord2ymd (n0 : Z) : Z * Z * Z :=
  let n := n0 - 1 in
  let n400 := n / 146097 in let n := n mod 146097 in
  let y := n400 * 400 + 1 in
  let n100 := n / 36524 in let n := n mod 36524 in
  let n4 := n / 1461 in let n := n mod 1461 in
  let n1 := n / 365 in let n := n mod 365 in
  let y := y + n100 * 100 + n4 * 4 + n1 in
  if (n1 =? 4) || (n100 =? 4) then (y - 1, 12, 31)
  else
    let leapyear := (n1 =? 3) && (negb (n4 =? 24) || (n100 =? 3)) in
    let m := Z.shiftr (n + 50) 5 in
    let preceding :=
      tbl DAYS_BEFORE_MONTH m + (if (2 <? m) && leapyear then 1 else 0) in
    if n <? preceding then
      let m' := m - 1 in
      let preceding' :=
        preceding - (tbl DAYS_IN_MONTH m' + (if (m' =? 2) && leapyear then 1 else 0)) in
      (y, m', n - preceding' + 1)
    else (y, m, n - preceding + 1).

(** [dt + timedelta(days=n)]: the date moves, the time of day stays. *)
Definition plus_days (dt : datetime) (n : Z) : datetime :=
  let '(y, m, d) := ord2ymd (ymd2ord (year dt) (month dt) (day dt) + n) in
  mk_datetime y m d (hour dt) (minute dt) (second dt) (microsecond dt).

Definition two_digits (z : Z) : string :=
  if z <? 10 then "0" ++ PyStr.dec z else PyStr.dec z.

(** [dt.strftime("%Y-%m-%d")]; the year is printed in full, which is four
    digits for every instant the demo can run at. *)
Definition strftime_ymd (dt : datetime) : string :=
  PyStr.dec (year dt) ++ "-" ++ two_digits (month dt) ++ "-" ++ two_digits (day dt).

End Clock.

(** ** [task_extractor.py] *)

Module TaskExtractor.
Import PyStr Clock.

(** The dictionary that [extract_task] returns. *)
Record TaskCandidate := mk_candidate {
  task : option string;
  assignee : string;
  deadline : option string;
  confidence : string;
  source : string;
  subject_or_channel : string
}.

(** An element of [confirmed_tasks]: the same fields and [added_on]. *)
Record Confirmed := mk_confirmed {
  fields : TaskCandidate;
  added_on : datetime
}.

(** [text + " " + subject_text] *)
Definition combined (content subject : string) : string :=
  lower content ++ " " ++ lower subject.

(** [(datetime.now() + timedelta(days=n)).strftime("%Y-%m-%d")] *)
Definition in_days (now : datetime) (n : Z) : string :=
  strftime_ymd (plus_days now n).

(** The four locals [task], [assignee], [deadline], [confidence]. *)
Definition verdict : Type := option string * string * option string * string.

(** The [if source == ...] chain, from the initial values of the four locals
    to their values when the chain is left. *)
Definition rules (now : datetime) (content src subject : string) : verdict :=
  let text := lower content in
  let subject_text := lower subject in
  let combined_text := combined content subject in
  if (src =? "email")%string then
    if "revised document" <in> combined_text || "send the revised document" <in> combined_text then
      (Some "Send the revised document", "Ravindu", Some "Friday", "high")
    else if "follow up with the client" <in> combined_text
            || ("follow up" <in> combined_text && "client" <in> combined_text) then
      (Some "Follow up with the client", "Ravindu", Some (in_days now 1), "high")
    else if "urgent" <in> subject_text || "asap" <in> combined_text
            || "immediately" <in> combined_text then
      (Some ("Complete urgent task: " ++ take 50 subject), "You", Some "Today", "high")
    else if "password reset" <in> combined_text
            || ("password" <in> combined_text && "reset" <in> combined_text) then
      (Some "Update security credentials", "You", Some (in_days now 2), "high")
    else if "phishing" <in> combined_text || "security" <in> combined_text then
      (Some "Update security and change credentials", "You", Some "Today", "high")
    else if "revisions" <in> combined_text
            || ("update" <in> combined_text && "version" <in> combined_text) then
      (Some "Revise and update document/proposal", "You", Some (in_days now 3), "medium")
    else if "please review" <in> combined_text
            || ("review" <in> combined_text && negb ("resolved" <in> combined_text)) then
      (Some ("Review: " ++ take 50 subject), "You", Some (in_days now 2), "medium")
    else if "please check" <in> combined_text
            || ("check" <in> combined_text && negb ("deployment" <in> combined_text)) then
      (Some ("Check and verify: " ++ take 50 subject), "You", Some (in_days now 2), "medium")
    else if "quote" <in> combined_text || "proposal" <in> combined_text then
      (Some "Prepare quote/proposal", "You", Some (in_days now 3), "medium")
    else if "confirm" <in> combined_text
            || ("approval" <in> combined_text && "go-live" <in> combined_text) then
      (Some "Confirm approval/signature", "You", Some (in_days now 1), "high")
    else if "schedule" <in> combined_text
            || ("meeting" <in> combined_text
                && ("schedule" <in> combined_text || "propose" <in> combined_text)) then
      (Some "Schedule meeting/call", "You", Some (in_days now 1), "medium")
    else if "invoice" <in> combined_text || "payment" <in> combined_text
            || "billing" <in> combined_text then
      (Some "Process invoice/payment/billing", "You", Some (in_days now 5), "medium")
    else if "feedback" <in> combined_text
            || ("report" <in> combined_text && negb ("outage" <in> combined_text))
            || "summary" <in> combined_text || "submit" <in> combined_text then
      (Some "Submit feedback/report/summary", "You", Some (in_days now 2), "medium")
    else if "training" <in> combined_text || "compliance" <in> combined_text
            || "acknowledge" <in> combined_text
            || ("policy" <in> combined_text && "read" <in> combined_text) then
      (Some "Complete training/acknowledge policy", "You", Some (in_days now 7), "medium")
    else if "contract" <in> combined_text
            || ("review" <in> combined_text && "contract" <in> combined_text) then
      (Some "Review and finalize contract", "You", Some (in_days now 3), "medium")
    else if "data" <in> combined_text
            || ("export" <in> combined_text && "data" <in> combined_text) then
      (Some "Prepare and send data export", "You", Some (in_days now 1), "medium")
    else if "approve" <in> combined_text
            && ("post" <in> combined_text || "copy" <in> combined_text
                || "campaign" <in> combined_text) then
      (Some "Approve marketing content", "You", Some (in_days now 1), "medium")
    else if "incident" <in> combined_text || "outage" <in> combined_text then
      (Some "Create incident/outage report", "You", Some (in_days now 2), "medium")
    else if "change request" <in> combined_text || "scope change" <in> combined_text then
      (Some "Estimate impact and respond to change request", "You",
       Some (in_days now 2), "medium")
    else if "recruit" <in> combined_text || "research" <in> combined_text
            || "study" <in> combined_text then
      (Some "Recruit users/prepare research", "You", Some (in_days now 4), "medium")
    else if "press" <in> combined_text then
      (Some "Review and edit press release", "You", Some (in_days now 2), "medium")
    else if "finalize" <in> combined_text || "sow" <in> combined_text then
      (Some "Finalize statement of work", "You", Some (in_days now 3), "medium")
    else if "renewal" <in> combined_text then
      (Some "Review and approve contract renewal", "You", Some (in_days now 10), "medium")
    else if "no action" <in> combined_text || "fyi" <in> combined_text
            || "digest" <in> combined_text || "resolved" <in> combined_text
            || "deployment" <in> combined_text then
      (None, "You", None, "low")
    else if any_in ["can you"; "could you"; "please"; "would you"] combined_text then
      (Some ("Review and respond: " ++ take 50 subject), "You", Some (in_days now 2), "low")
    else (None, "You", None, "low")
  else if (src =? "calendar")%string then
    if "prepare" <in> text then
      (Some "Prepare meeting summary", "You", Some (in_days now 1), "high")
    else (None, "You", None, "low")
  else if (src =? "slack")%string then
    if "check" <in> text && "logs" <in> text then
      (Some "Check server logs", "You", Some (in_days now 1), "medium")
    else if "deployment" <in> text then
      (Some "Update deployment checklist", "You", Some (in_days now 2), "medium")
    else (None, "You", None, "low")
  else (None, "You", None, "low").

(** [if task:] on an optional text: [None] and the empty text are false. *)
Definition truthy (t : option string) : bool :=
  match t with
  | None | Some EmptyString => false
  | Some _ => true
  end.

(** [extract_task(content, source, subject_or_channel)], called at the
    instant [now] with the module's list [confirmed_tasks]; returns the
    dictionary and the list as the call leaves it.  Every reading of the
    clock within the call gives [now]. *)
Definition extract_task (confirmed_tasks : list Confirmed) (now : datetime)
    (content src subject : string) : TaskCandidate * list Confirmed :=
  let '(t, a, d, c) := rules now content src subject in
  let result := mk_candidate t a d c src subject in
  (result,
   if truthy t then (confirmed_tasks ++ [mk_confirmed result now])%list
   else confirmed_tasks).

End TaskExtractor.

(** ** [ai_agent.py]: values, exceptions and the task store *)

Module Py.
Import PyStr.

Inductive exn := OSError | AttributeError | IndexError | UnicodeEncodeError.

Inductive result (A : Type) :=
| Ok (a : A)
| Raise (e : exn).
Arguments Ok {A} a.
Arguments Raise {A} e.

Definition bind {A B} (r : result A) (k : A -> result B) : result B :=
  match r with
  | Ok a => k a
  | Raise e => Raise e
  end.

Notation "x <- e ;; k" := (bind e (fun x => k))
  (at level 61, e at next level, right associativity).

#[local] Set Warnings "-register-all".

(** What [json.load] builds and [json.dump] writes: [None], booleans,
    integers, texts, lists, and dictionaries with text keys in insertion
    order. *)
Inductive value :=
| VNone
| VBool (b : bool)
| VInt (z : Z)
| VStr (s : string)
| VList (l : list value)
| VDict (d : list (string * value)).

(** The text holds a lone surrogate: it cannot be encoded as UTF-8. *)
Fixpoint has_surrogate (s : string) : bool :=
  match s with
  | String c (String c' _ as s') =>
      ((N_of_ascii c =? 237) && (160 <=? N_of_ascii c') && (N_of_ascii c' <=? 191))%N
      || has_surrogate s'
  | _ => false
  end.

(** [json.dump(v, f, ensure_ascii=False)] into a file opened with
    [encoding="utf-8"] can write every text of [v], keys included. *)
Fixpoint encodable (v : value) : bool :=
  match v with
  | VStr s => negb (has_surrogate s)
  | VList l => forallb encodable l
  | VDict d => forallb (fun '(k, x) => negb (has_surrogate k) && encodable x) d
  | _ => true
  end.

(** [d.get(k)] *)
Fixpoint dict_get (k : string) (d : list (string * value)) : option value :=
  match d with
  | [] => None
  | (k', v) :: d' => if (k' =? k)%string then Some v else dict_get k d'
  end.

(** [d[k] = v]: an existing key keeps its place, a new one goes last. *)
Fixpoint dict_set (k : string) (v : value) (d : list (string * value))
  : list (string * value) :=
  match d with
  | [] => [(k, v)]
  | (k', v') :: d' =>
      if (k' =? k)%string then (k', v) :: d' else (k', v') :: dict_set k v d'
  end.

(** [l[i] = x] for an index within the list. *)
Fixpoint list_set {A} (i : nat) (x : A) (l : list A) : list A :=
  match l, i with
  | [], _ => []
  | _ :: l', O => x :: l'
  | y :: l', S i' => y :: list_set i' x l'
  end.

Definition hex_digit (n : N) : ascii :=
  ascii_of_N (if (n <? 10)%N then 48 + n else 87 + n).

(** One character inside [repr] of a text quoted by [q]. *)
Definition repr_char (q c : ascii) : string :=
  let n := N_of_ascii c in
  if (c =? "\")%char then "\\"
  else if (c =? q)%char then String "\" (String q "")
  else if (n =? 10)%N then "\n"
  else if (n =? 13)%N then "\r"
  else if (n =? 9)%N then "\t"
  else if ((n <? 32) || (n =? 127))%N then
    String "\" (String "x" (String (hex_digit (n / 16)) (String (hex_digit (n mod 16)) "")))
  else String c "".

Fixpoint repr_chars (q : ascii) (s : string) : string :=
  match s with
  | EmptyString => EmptyString
  | String c s' => repr_char q c ++ repr_chars q s'
  end.

(** The double quote character. *)
Definition dquote : ascii := ascii_of_N 34.

(** [repr(s)] of a text: single quotes, unless the text holds a single
    quote and no double quote. *)
Definition repr_str (s : string) : string :=
  let q := if String "'" EmptyString <in> s && negb (String dquote EmptyString <in> s)
           then dquote else "'"%char in
  String q (repr_chars q s ++ String q EmptyString).

(** [repr(v)] *)
Fixpoint repr (v : value) : string :=
  match v with
  | VNone => "None"
  | VBool true => "True"
  | VBool false => "False"
  | VInt z => dec z
  | VStr s => repr_str s
  | VList l =>
      "[" ++ (fix items (l : list value) : string :=
                match l with
                | [] => ""
                | x :: l' =>
                    repr x ++ match l' with [] => "" | _ :: _ => ", " ++ items l' end
                end) l ++ "]"
  | VDict d =>
      "{" ++ (fix items (d : list (string * value)) : string :=
                match d with
                | [] => ""
                | (k, x) :: d' =>
                    repr_str k ++ ": " ++ repr x
                    ++ match d' with [] => "" | _ :: _ => ", " ++ items d' end
                end) d ++ "}"
  end.

(** [str(v)], as an f-string renders [{v}]. *)
Definition str (v : value) : string :=
  match v with
  | VStr s => s
  | _ => repr v
  end.

Definition is_space (c : ascii) : bool :=
  let n := N_of_ascii c in ((9 <=? n) && (n <=? 13) || (n =? 32))%N.

Definition digit_val (c : ascii) : option Z :=
  let n := N_of_ascii c in
  if ((48 <=? n) && (n <=? 57))%N then Some (Z.of_N n - 48) else None.

Fixpoint lstrip (s : string) : string :=
  match s with
  | String c s' => if is_space c then lstrip s' else s
  | EmptyString => EmptyString
  end.

Fixpoint rstrip (s : string) : string :=
  match s with
  | EmptyString => EmptyString
  | String c s' =>
      match rstrip s' with
      | EmptyString => if is_space c then EmptyString else String c EmptyString
      | r => String c r
      end
  end.

(** The digits of a decimal literal: a single underscore may separate two
    digits. *)
Fixpoint digits (s : string) (acc : Z) (after_digit : bool) : option Z :=
  match s with
  | EmptyString => if after_digit then Some acc else None
  | String c s' =>
      match digit_val c with
      | Some d => digits s' (10 * acc + d) true
      | None =>
          if (c =? "_")%char && after_digit then digits s' acc false else None
      end
  end.

(** [int(s)] on a text: [None] where Python raises [ValueError].  White
    space around the literal is dropped, a sign may lead.  (The
    interpreter's cap on the length of a literal is far beyond any task
    reference and is left out.) *)
Definition py_int (s : string) : option Z :=
  match lstrip (rstrip s) with
  | String "-" r => option_map Z.opp (digits r 0 false)
  | String "+" r => digits r 0 false
  | t => digits t 0 false
  end.

End Py.

Module Store.
Import PyStr Py.

(** The file at [DATA_PATH], as [load_tasks] can find it. *)
Inductive storage :=
| Missing                       (* [DATA_PATH.exists()] is false *)
| Unopenable                    (* the path exists, [open] raises [OSError] *)
| Garbled                       (* the file opens, [json.load] raises *)
| Stored (tasks : list value)   (* the file holds this JSON array *)
| ReadOnly (tasks : list value).
    (* it holds this array, and [open(..., "w")] raises [OSError] *)

(** [load_tasks()].  [open] is evaluated before the [try] is entered, so its
    exception leaves the function; whatever [json.load] raises (bytes that do
    not decode, text that is not JSON) is caught. *)
Definition load_tasks (st : storage) : result (list value) :=
  match st with
  | Missing => Ok []
  | Unopenable => Raise OSError
  | Garbled => Ok []
  | Stored tasks => Ok tasks
  | ReadOnly tasks => Ok tasks
  end.

(** [save_tasks(tasks)] on the file [st]: what it raises, and the file
    afterwards.  Where [open(DATA_PATH, "w")] raises, nothing is written.
    Once the file is open it has been truncated; [json.dump] then writes the
    array piece by piece and raises at the first text that cannot be
    encoded, which leaves a file that is no JSON. *)
Definition save_tasks (st : storage) (tasks : list value) : result unit * storage :=
  match st with
  | Unopenable | ReadOnly _ => (Raise OSError, st)
  | Missing | Garbled | Stored _ =>
      if forallb encodable tasks then (Ok tt, Stored tasks)
      else (Raise UnicodeEncodeError, Garbled)
  end.

(** A task reference: [Union[int, str]]. *)
Inductive task_ref :=
| RefInt (i : Z)
| RefStr (s : string).

(** [len(tasks)] *)
Definition len {A} (l : list A) : Z := Z.of_nat (length l).

(** [t.get("task", "").lower()] *)
Definition description (t : value) : result string :=
  match t with
  | VDict d =>
      match dict_get "task" d with
      | None => Ok (lower "")
      | Some (VStr s) => Ok (lower s)
      | Some _ => Raise AttributeError
      end
  | _ => Raise AttributeError
  end.

(** The loop [for i, t in enumerate(tasks)], entered at position [i]. *)
Fixpoint first_match (q : string) (tasks : list value) (i : Z) : result (option Z) :=
  match tasks with
  | [] => Ok None
  | t :: rest =>
      d <- description t ;;
      if q <in> d then Ok (Some i) else first_match q rest (i + 1)
  end.

(** The [try] block on a text reference: the index, when [int(ref)]
    succeeds and lies within bounds. *)
Definition numeric_index (s : string) (tasks : list value) : option Z :=
  match py_int s with
  | Some idx => if (0 <=? idx) && (idx <? len tasks) then Some idx else None
  | None => None
  end.

(** [_find_task_index(ref)] *)
Definition _find_task_index (st : storage) (ref : task_ref) : result (option Z) :=
  tasks <- load_tasks st ;;
  match ref with
  | RefInt r =>
      if (0 <=? r) && (r <? len tasks) then Ok (Some r) else Ok None
  | RefStr s =>
      match numeric_index s tasks with
      | Some idx => Ok (Some idx)
      | None => first_match (lower s) tasks 0
      end
  end.

End Store.

Module TaskAgent.
Import PyStr Py Store.

(** The dictionary that [get_response] returns. *)
Record Reply := mk_reply {
  response : string;
  action : string;
  confidence : string
}.

(** The dictionary that an action on the store returns; [index] is present
    on success only. *)
Record Outcome := mk_outcome {
  success : bool;
  message : string;
  index : option Z
}.

(** [self.task_keywords], in insertion order. *)
Definition task_keywords : list (string * list string) :=
  [("send", ["send"; "email"; "submit"]);
   ("review", ["review"; "check"; "verify"]);
   ("schedule", ["schedule"; "book"; "meeting"; "call"]);
   ("approve", ["approve"; "accept"; "authorize"]);
   ("process", ["process"; "handle"; "execute"]);
   ("invoice", ["invoice"; "billing"; "payment"]);
   ("training", ["training"; "learn"; "course"]);
   ("feedback", ["feedback"; "comment"; "opinion"])].

(** [categorize_task(task_description)] *)
Definition categorize_task (task_description : string) : string :=
  let task_lower := lower task_description in
  (fix scan (table : list (string * list string)) : string :=
     match table with
     | [] => "general"
     | (category, keywords) :: table' =>
         if any_in keywords task_lower then category else scan table'
     end) task_keywords.

(** [TaskAgent.get_response(task_description, user_message, task_owner)] *)
Definition get_response (task_description user_message task_owner : string) : Reply :=
  let category := categorize_task task_description in
  let text := lower user_message in
  if any_in ["done"; "completed"; "finished"; "complete"] text then
    mk_reply ("✅ Marking '" ++ task_description ++ "' complete.") "complete" "high"
  else if any_in ["help"; "how"; "guide"; "steps"; "what"] text then
    mk_reply ("I can guide you through: " ++ task_description
              ++ ". Tell me which step you need help with.") "guide" "medium"
  else if any_in ["send"; "email"; "submit"] text then
    mk_reply ("I can send or prepare this item for you: " ++ task_description
              ++ ". Confirm recipients or provide message body.") "send" "high"
  else if any_in ["schedule"; "book"; "when"; "time"; "date"] text then
    mk_reply ("I can schedule '" ++ task_description
              ++ "'. Please provide a preferred date/time.") "schedule" "medium"
  else if any_in ["reassign"; "assign to"; "change owner"; "assign"] text then
    mk_reply ("Who should I assign '" ++ task_description ++ "' to?") "reassign" "medium"
  else
    mk_reply ("Got it. For '" ++ task_description
              ++ "' I can guide, send, schedule, reassign, or mark complete. What would you like me to do?")
             "acknowledge" "low".

(** [tasks[idx]] for an index that [_find_task_index] returned. *)
Definition item (tasks : list value) (idx : Z) : result value :=
  match nth_error tasks (Z.to_nat idx) with
  | Some t => Ok t
  | None => Raise IndexError
  end.

(** [TaskAgent.reassign(task_ref, new_owner)]: the returned dictionary (or
    the exception) and the file as the call leaves it. *)
Definition reassign (st : storage) (ref : task_ref) (new_owner : string)
  : result Outcome * storage :=
  match _find_task_index st ref with
  | Raise e => (Raise e, st)
  | Ok None => (Ok (mk_outcome false "Task not found" None), st)
  | Ok (Some idx) =>
      match (tasks <- load_tasks st ;; t <- item tasks idx ;; Ok (tasks, t)) with
      | Raise e => (Raise e, st)
      | Ok (tasks, VDict d) =>
          let old := match dict_get "owner" d with Some v => v | None => VNone end in
          let tasks' :=
            list_set (Z.to_nat idx) (VDict (dict_set "owner" (VStr new_owner) d)) tasks in
          match save_tasks st tasks' with
          | (Raise e, st') => (Raise e, st')
          | (Ok _, st') =>
              (Ok (mk_outcome true ("Reassigned from " ++ str old ++ " to " ++ new_owner)
                              (Some idx)),
               st')
          end
      | Ok (_, _) => (Raise AttributeError, st)
      end
  end.

End TaskAgent.

Module NLPAgent.
Import PyStr Py Store.

(** What the agent reads of a spaCy token. *)
Record Token := mk_token {
  dep_ : string;
  lemma_ : string
}.

(** The loaded pipeline [_nlp]: from a message to its tokens.  [None] when
    spaCy or its model could not be loaded. *)
Definition Pipeline : Type := option (string -> list Token).

(** The loop over [doc]: the lemma of the first root token whose lemma is
    in the vocabulary. *)
Fixpoint root_lemma (doc : list Token) : option string :=
  match doc with
  | [] => None
  | token :: doc' =>
      if (dep_ token =? "ROOT")%string then
        let lemma := lower (lemma_ token) in
        if existsb (String.eqb lemma)
             ["send"; "schedule"; "approve"; "review"; "process"; "complete"; "reassign"]
        then Some lemma else root_lemma doc'
      else root_lemma doc'
  end.

(** [NLPAgent._extract_intent(user_message)] *)
Definition _extract_intent (nlp : Pipeline) (user_message : string) : string :=
  let text := lower user_message in
  if any_in ["done"; "completed"; "finished"; "complete"] text then "complete"
  else if any_in ["help"; "how"; "guide"; "steps"; "what"] text then "guide"
  else if any_in ["schedule"; "book"; "meeting"; "call"; "time"; "date"] text then "schedule"
  else if any_in ["send"; "email"; "submit"] text then "send"
  else if any_in ["approve"; "approve this"; "sign off"; "authorize"] text then "approve"
  else if any_in ["reassign"; "assign to"; "assign"] text then "reassign"
  else
    match nlp with
    | Some parse =>
        match root_lemma (parse user_message) with
        | Some lemma => lemma
        | None => "acknowledge"
        end
    | None => "acknowledge"
    end.

(** [NLPAgent.get_response(task_description, user_message, task_owner)] *)
Definition get_response (nlp : Pipeline) (task_description user_message task_owner : string)
  : TaskAgent.Reply :=
  match nlp with
  | None => TaskAgent.get_response task_description user_message task_owner
  | Some _ =>
      let intent := _extract_intent nlp user_message in
      if (intent =? "complete")%string then
        TaskAgent.mk_reply
          ("✅ Got it — I'll mark '" ++ task_description ++ "' complete.") "complete" "high"
      else if existsb (String.eqb intent)
                ["send"; "schedule"; "approve"; "review"; "process"; "reassign"] then
        TaskAgent.get_response task_description user_message task_owner
      else TaskAgent.get_response task_description user_message task_owner
  end.

End NLPAgent.

(** ** The conditions of the chain, by name *)

Module Conditions.
Import PyStr Clock TaskExtractor.

(** Some branch of the e-mail chain above the no-action branch is taken:
    the disjunction of the conditions of source lines 28 to 139, over the
    buffer [ct] and the lower-cased subject [st]. *)
Definition email_action_rule (ct st : string) : bool :=
  ("revised document" <in> ct || "send the revised document" <in> ct)
  || ("follow up with the client" <in> ct || ("follow up" <in> ct && "client" <in> ct))
  || ("urgent" <in> st || "asap" <in> ct || "immediately" <in> ct)
  || ("password reset" <in> ct || ("password" <in> ct && "reset" <in> ct))
  || ("phishing" <in> ct || "security" <in> ct)
  || ("revisions" <in> ct || ("update" <in> ct && "version" <in> ct))
  || ("please review" <in> ct || ("review" <in> ct && negb ("resolved" <in> ct)))
  || ("please check" <in> ct || ("check" <in> ct && negb ("deployment" <in> ct)))
  || ("quote" <in> ct || "proposal" <in> ct)
  || ("confirm" <in> ct || ("approval" <in> ct && "go-live" <in> ct))
  || ("schedule" <in> ct || ("meeting" <in> ct && ("schedule" <in> ct || "propose" <in> ct)))
  || ("invoice" <in> ct || "payment" <in> ct || "billing" <in> ct)
  || ("feedback" <in> ct || ("report" <in> ct && negb ("outage" <in> ct))
      || "summary" <in> ct || "submit" <in> ct)
  || ("training" <in> ct || "compliance" <in> ct || "acknowledge" <in> ct
      || ("policy" <in> ct && "read" <in> ct))
  || ("contract" <in> ct || ("review" <in> ct && "contract" <in> ct))
  || ("data" <in> ct || ("export" <in> ct && "data" <in> ct))
  || ("approve" <in> ct && ("post" <in> ct || "copy" <in> ct || "campaign" <in> ct))
  || ("incident" <in> ct || "outage" <in> ct)
  || ("change request" <in> ct || "scope change" <in> ct)
  || ("recruit" <in> ct || "research" <in> ct || "study" <in> ct)
  || ("press" <in> ct)
  || ("finalize" <in> ct || "sow" <in> ct)
  || ("renewal" <in> ct).

(** The condition of the no-action branch (source line 145). *)
Definition no_task_marker (ct : string) : bool :=
  "no action" <in> ct || "fyi" <in> ct || "digest" <in> ct || "resolved" <in> ct
  || "deployment" <in> ct.

(** The condition of the last branch (source line 149). *)
Definition polite (ct : string) : bool :=
  any_in ["can you"; "could you"; "please"; "would you"] ct.

(** A branch that assigns a task is the one taken.  The no-action branch
    assigns none and hides the politeness branch below it. *)
Definition rule_matched (content src subject : string) : bool :=
  let text := lower content in
  let ct := combined content subject in
  if (src =? "email")%string then
    email_action_rule ct (lower subject) || (negb (no_task_marker ct) && polite ct)
  else if (src =? "calendar")%string then "prepare" <in> text
  else if (src =? "slack")%string then
    ("check" <in> text && "logs" <in> text) || "deployment" <in> text
  else false.

(** The condition of some branch of the chain holds, taken or not. *)
Definition some_condition_holds (content src subject : string) : bool :=
  let text := lower content in
  let ct := combined content subject in
  if (src =? "email")%string then
    email_action_rule ct (lower subject) || no_task_marker ct || polite ct
  else if (src =? "calendar")%string then "prepare" <in> text
  else if (src =? "slack")%string then
    ("check" <in> text && "logs" <in> text) || "deployment" <in> text
  else false.

(** [task is not None] *)
Definition present (t : option string) : bool :=
  match t with Some _ => true | None => false end.

(** The instant used in the worked examples. *)
Definition demo_now : datetime := mk_datetime 2026 11 3 9 30 0 0.

End Conditions.

(** ** Tables and sample data for the statements about the agent *)

Module AgentSpec.
Import PyStr Py Store.

(** The confidence tier per action, as the specification lists it. *)
Definition tier_table : list (string * string) :=
  [("complete", "high"); ("guide", "medium"); ("send", "high");
   ("schedule", "medium"); ("reassign", "medium"); ("acknowledge", "low")].

Fixpoint tier (a : string) (table : list (string * string)) : option string :=
  match table with
  | [] => None
  | (a', c) :: table' => if (a' =? a)%string then Some c else tier a table'
  end.

(** Some keyword group of [NLPAgent._extract_intent] occurs in [text]. *)
Definition intent_keyword_hit (text : string) : bool :=
  any_in ["done"; "completed"; "finished"; "complete"] text
  || any_in ["help"; "how"; "guide"; "steps"; "what"] text
  || any_in ["schedule"; "book"; "meeting"; "call"; "time"; "date"] text
  || any_in ["send"; "email"; "submit"] text
  || any_in ["approve"; "approve this"; "sign off"; "authorize"] text
  || any_in ["reassign"; "assign to"; "assign"] text.

(** A pipeline that knows one sentence, with the parse spaCy gives it. *)
Definition demo_pipeline : NLPAgent.Pipeline :=
  Some (fun message =>
          if (message =? "I am completing it")%string then
            [NLPAgent.mk_token "nsubj" "I"; NLPAgent.mk_token "aux" "be";
             NLPAgent.mk_token "ROOT" "complete"; NLPAgent.mk_token "dobj" "it"]
          else []).

(** No description in [tasks] contains [q], and reading them raises
    nothing. *)
Definition no_description_has (q : string) (tasks : list value) : bool :=
  forallb (fun t => match description t with
                    | Ok d => negb (q <in> d)
                    | Raise _ => false
                    end) tasks.

(** The reference names no task of [tasks]: an integer out of bounds, or a
    text that is no index within bounds and occurs in no description. *)
Definition resolves_to_nothing (tasks : list value) (ref : task_ref) : bool :=
  match ref with
  | RefInt i => (i <? 0) || (len tasks <=? i)
  | RefStr s =>
      match numeric_index s tasks with
      | Some _ => false
      | None => no_description_has (lower s) tasks
      end
  end.

(** A store with two tasks. *)
Definition demo_tasks : list value :=
  [VDict [("task", VStr "Call 1 client"); ("owner", VStr "You")];
   VDict [("task", VStr "Buy 2 books"); ("owner", VStr "Ravindu")]].

End AgentSpec.

From Stdlib Require Import Permutation Sorted.

(** ** More of Python: indexing, exceptions, time stamps, [split] *)

Module PyMore.
Import PyStr Clock Py Store.

(** The exceptions of the remaining code: those above, and two more. *)
Inductive exc :=
| Builtin (e : exn)
| TypeError
| DecodeError.   (* what [json.load] raises on a file it cannot read *)

Inductive res (A : Type) :=
| Return (a : A)
| Throw (e : exc).
Arguments Return {A} a.
Arguments Throw {A} e.

Definition lift {A} (r : result A) : res A :=
  match r with
  | Ok a => Return a
  | Raise e => Throw (Builtin e)
  end.

(** The position that [l[i]] denotes: a negative index counts from the
    end; [None] where Python raises [IndexError]. *)
Definition position {A} (l : list A) (i : Z) : option nat :=
  if (0 <=? i) && (i <? len l) then Some (Z.to_nat i)
  else if (- len l <=? i) && (i <? 0) then Some (Z.to_nat (len l + i))
  else None.

(** [now.strftime("%Y-%m-%d %H:%M:%S")] *)
Definition strftime_full (dt : datetime) : string :=
  strftime_ymd dt ++ " " ++ two_digits (hour dt) ++ ":" ++ two_digits (minute dt)
  ++ ":" ++ two_digits (second dt).

(** White space as [str.split()] sees it (ASCII). *)
Definition is_white (c : ascii) : bool :=
  let n := N_of_ascii c in
  ((9 <=? n) && (n <=? 13) || (28 <=? n) && (n <=? 32))%N.

(** [s.split()], with the word being read in [cur]. *)
Fixpoint split_from (s cur : string) : list string :=
  match s with
  | EmptyString => match cur with EmptyString => [] | _ => [cur] end
  | String c s' =>
      if is_white c then
        match cur with
        | EmptyString => split_from s' EmptyString
        | _ => cur :: split_from s' EmptyString
        end
      else split_from s' (cur ++ String c EmptyString)
  end.

Definition split (s : string) : list string := split_from s EmptyString.

(** [if note:] on an optional text. *)
Definition truthy (t : option string) : bool :=
  match t with
  | None | Some EmptyString => false
  | Some _ => true
  end.

(** [d.setdefault(key, []).append(entry)]: [None] where the value under
    [key] has no [append]. *)
Definition setdefault_append (key : string) (entry : value) (d : list (string * value))
  : option (list (string * value)) :=
  match dict_get key d with
  | None => Some (dict_set key (VList [entry]) d)
  | Some (VList l) => Some (dict_set key (VList (l ++ [entry])) d)
  | Some _ => None
  end.

End PyMore.

(** ** [ai_agent.py]: the other actions and the two entry points *)

Module Actions.
Import PyStr Clock Py Store TaskAgent PyMore.

Definition not_found : Outcome := mk_outcome false "Task not found" None.

(** [save_tasks(tasks)] and then [return out]. *)
Definition commit (st : storage) (tasks : list value) (out : Outcome)
  : res Outcome * storage :=
  match save_tasks st tasks with
  | (Raise e, st') => (Throw (Builtin e), st')
  | (Ok _, st') => (Return out, st')
  end.

(** The common start of the four actions: resolve the reference, load the
    collection again, read [tasks[idx]]. *)
Definition locate (st : storage) (ref : task_ref)
  : result (option (Z * list value * value)) :=
  found <- _find_task_index st ref ;;
  match found with
  | None => Ok None
  | Some idx =>
      tasks <- load_tasks st ;;
      t <- item tasks idx ;;
      Ok (Some (idx, tasks, t))
  end.

(** [TaskAgent.mark_complete(task_ref, note)] at the instant [now]. *)
Definition mark_complete (st : storage) (now : datetime) (ref : task_ref)
    (note : option string) : res Outcome * storage :=
  match locate st ref with
  | Raise e => (Throw (Builtin e), st)
  | Ok None => (Return not_found, st)
  | Ok (Some (idx, tasks, VDict d)) =>
      let stamp := strftime_full now in
      let d1 := dict_set "status" (VStr "completed") d in
      let d2 := dict_set "completed_date" (VStr stamp) d1 in
      let done := mk_outcome true "Task marked complete" (Some idx) in
      match note with
      | Some text =>
          if truthy note then
            match setdefault_append "agent_notes"
                    (VDict [("when", VStr stamp); ("note", VStr text)]) d2 with
            | Some d3 => commit st (list_set (Z.to_nat idx) (VDict d3) tasks) done
            | None => (Throw (Builtin AttributeError), st)
            end
          else commit st (list_set (Z.to_nat idx) (VDict d2) tasks) done
      | None => commit st (list_set (Z.to_nat idx) (VDict d2) tasks) done
      end
  | Ok (Some (_, _, _)) => (Throw TypeError, st)
  end.

(** [TaskAgent.set_reminder(task_ref, hours)] for an integer [hours]. *)
Definition set_reminder (st : storage) (ref : task_ref) (hours : Z)
  : res Outcome * storage :=
  match locate st ref with
  | Raise e => (Throw (Builtin e), st)
  | Ok None => (Return not_found, st)
  | Ok (Some (idx, tasks, VDict d)) =>
      let d1 := dict_set "reminder_hours" (VInt hours) d in
      let d2 := dict_set "reminder" (VStr (dec hours ++ " hour(s) before")) d1 in
      let d3 := dict_set "reminder_triggered" (VBool false) d2 in
      commit st (list_set (Z.to_nat idx) (VDict d3) tasks)
             (mk_outcome true "Reminder set" (Some idx))
  | Ok (Some (_, _, _)) => (Throw TypeError, st)
  end.

(** [TaskAgent.add_comment(task_ref, comment, author)] at the instant
    [now]. *)
Definition add_comment (st : storage) (now : datetime) (ref : task_ref)
    (comment author : string) : res Outcome * storage :=
  match locate st ref with
  | Raise e => (Throw (Builtin e), st)
  | Ok None => (Return not_found, st)
  | Ok (Some (idx, tasks, t)) =>
      let entry := VDict [("when", VStr (strftime_full now));
                          ("author", VStr author); ("comment", VStr comment)] in
      match t with
      | VDict d =>
          match setdefault_append "comments" entry d with
          | Some d1 =>
              commit st (list_set (Z.to_nat idx) (VDict d1) tasks)
                     (mk_outcome true "Comment added" (Some idx))
          | None => (Throw (Builtin AttributeError), st)
          end
      | _ => (Throw (Builtin AttributeError), st)
      end
  end.

(** [reassign], in the result type of this part. *)
Definition reassign' (st : storage) (ref : task_ref) (new_owner : string)
  : res Outcome * storage :=
  let '(r, st') := reassign st ref new_owner in (lift r, st').

(** The reply of [get_ai_response]: the agent's dictionary, and the entry
    ["executed"] when an execution was attempted. *)
Record Response := mk_response {
  reply : Reply;
  executed : option Outcome
}.

(** [get_ai_response(task_description, user_message, task_owner,
    auto_execute, task_ref)], with the loaded pipeline [nlp]. *)
Definition get_ai_response (nlp : NLPAgent.Pipeline) (st : storage) (now : datetime)
    (task_description user_message task_owner : string)
    (auto_execute : bool) (ref : option task_ref) : res Response * storage :=
  let resp :=
    match nlp with
    | Some _ => NLPAgent.get_response nlp task_description user_message task_owner
    | None => TaskAgent.get_response task_description user_message task_owner
    end in
  match ref with
  | Some task_ref =>
      if auto_execute && negb (action resp =? "")%string then
        let '(r, st') :=
          if (action resp =? "complete")%string then
            mark_complete st now task_ref (Some user_message)
          else if (action resp =? "schedule")%string then
            set_reminder st task_ref 1
          else if (action resp =? "send")%string then
            add_comment st now task_ref ("Sent by agent: " ++ user_message) "agent"
          else if (action resp =? "reassign")%string then
            reassign' st task_ref (last (split user_message) "")
          else
            (Return (mk_outcome false "No execution rule for action" None), st) in
        match r with
        | Return out => (Return (mk_response resp (Some out)), st')
        | Throw e => (Throw e, st')
        end
      else (Return (mk_response resp None), st)
  | None => (Return (mk_response resp None), st)
  end.

(** The keyword arguments that [process_task_action] reads; [hours], when
    given, is an integer. *)
Record Kwargs := mk_kwargs {
  kw_note : option string;
  kw_hours : option Z;
  kw_new_owner : option string;
  kw_comment : option string;
  kw_author : option string
}.

Definition or_default {A} (o : option A) (d : A) : A :=
  match o with Some a => a | None => d end.

(** [process_task_action(task_ref, action_type, **kwargs)] *)
Definition process_task_action (st : storage) (now : datetime) (ref : task_ref)
    (action_type : string) (kwargs : Kwargs) : res Outcome * storage :=
  if (action_type =? "complete")%string then
    mark_complete st now ref (kw_note kwargs)
  else if (action_type =? "set_reminder")%string then
    set_reminder st ref (or_default (kw_hours kwargs) 1)
  else if (action_type =? "reassign")%string then
    reassign' st ref (or_default (kw_new_owner kwargs) "")
  else if (action_type =? "comment")%string then
    add_comment st now ref (or_default (kw_comment kwargs) "")
                (or_default (kw_author kwargs) "agent")
  else (Return (mk_outcome false "Unknown action" None), st).

End Actions.

(** ** [main.py]: from the demo e-mails to [data/tasks.json] *)

Module Main.
Import PyStr Clock Py Store TaskExtractor.

(** A demo e-mail: [subject] and [body] hold texts, [from] may be
    missing. *)
Record Email := mk_email {
  e_subject : string;
  e_body : string;
  e_from : option string
}.

Definition opt_text (o : option string) : value :=
  match o with Some s => VStr s | None => VNone end.

(** The dictionary [task_obj] built from a result with a task [t]. *)
Definition task_obj (t : string) (result : TaskCandidate) (email : Email) : value :=
  VDict
    [("task", VStr t);
     ("owner", VStr (assignee result));
     ("deadline", opt_text (deadline result));
     ("priority",
      VStr (if (confidence result =? "high")%string then "high"
            else if (confidence result =? "medium")%string then "medium"
            else "low"));
     ("suggestion",
      VStr ("Action item from " ++ source result ++ ": " ++ subject_or_channel result));
     ("status", VStr "pending");
     ("source", VStr (source result));
     ("confidence", VStr (confidence result));
     ("source_email",
      VDict [("from", VStr (match e_from email with
                            | Some a => a
                            | None => "unknown@example.com"
                            end));
             ("subject", VStr (e_subject email));
             ("body", VStr (e_body email))]);
     ("reminder", VNone);
     ("reminder_triggered", VBool false)].

(** The loop over the e-mails, from the [k]-th on; [clock k] is the instant
    at which the [k]-th e-mail is processed.  Returns what is appended to
    [all_tasks] and the list [confirmed_tasks] at the end. *)
Fixpoint loop (clock : nat -> datetime) (k : nat) (emails : list Email)
    (confirmed_tasks : list Confirmed) : list value * list Confirmed :=
  match emails with
  | [] => ([], confirmed_tasks)
  | email :: rest =>
      let '(result, confirmed1) :=
        extract_task confirmed_tasks (clock k) (e_body email) "email" (e_subject email) in
      let '(all_tasks, confirmed2) := loop clock (S k) rest confirmed1 in
      (match task result with
       | Some t => if truthy (task result) then task_obj t result email :: all_tasks
                   else all_tasks
       | None => all_tasks
       end,
       confirmed2)
  end.

(** The script: the file it writes and the list [confirmed_tasks] it
    leaves (what it prints is left out).  It dumps with the default
    [ensure_ascii], which can write every text. *)
Definition main (clock : nat -> datetime) (emails : list Email)
  : storage * list Confirmed :=
  let '(all_tasks, confirmed) := loop clock 0 emails [] in
  (Stored all_tasks, confirmed).

End Main.

(** ** [ui/dashboard.py]: what the page computes from the collection *)

Module Dashboard.
Import PyStr Clock Py Store PyMore.

(** The load at the top of the script: no [try] around [json.load]. *)
Definition load (st : storage) : res (list value) :=
  match st with
  | Missing => Return []
  | Unopenable => Throw (Builtin OSError)
  | Garbled => Throw DecodeError
  | Stored tasks | ReadOnly tasks => Return tasks
  end.

(** [t.get(key) == text] *)
Definition field_is (key text : string) (t : value) : res bool :=
  match t with
  | VDict d =>
      Return (match dict_get key d with
              | Some (VStr s) => (s =? text)%string
              | _ => false
              end)
  | _ => Throw (Builtin AttributeError)
  end.

(** [[(i, t) for i, t in enumerate(all_tasks) if t.get("status") == "pending"]],
    counting from [i]. *)
Fixpoint pending_from (i : nat) (tasks : list value) : res (list (nat * value)) :=
  match tasks with
  | [] => Return []
  | t :: rest =>
      match field_is "status" "pending" t with
      | Throw e => Throw e
      | Return b =>
          match pending_from (S i) rest with
          | Throw e => Throw e
          | Return l => Return (if b then (i, t) :: l else l)
          end
      end
  end.

(** [priority_order.get(t.get("priority", "low"), 3)]: a list or a
    dictionary cannot be looked up. *)
Definition priority_key (t : value) : res Z :=
  match t with
  | VDict d =>
      match dict_get "priority" d with
      | None => Return 2
      | Some (VStr s) =>
          Return (if (s =? "high")%string then 0
                  else if (s =? "medium")%string then 1
                  else if (s =? "low")%string then 2
                  else 3)
      | Some (VList _) | Some (VDict _) => Throw TypeError
      | Some _ => Return 3
      end
  | _ => Throw (Builtin AttributeError)
  end.

(** The keys of all entries, computed before the list is reordered. *)
Fixpoint keyed (l : list (nat * value)) : res (list (Z * (nat * value))) :=
  match l with
  | [] => Return []
  | x :: l' =>
      match priority_key (snd x) with
      | Throw e => Throw e
      | Return k =>
          match keyed l' with
          | Throw e => Throw e
          | Return kl => Return ((k, x) :: kl)
          end
      end
  end.

(** [list.sort(key=...)] is stable: an entry goes before the entries of
    the same key that followed it. *)
Fixpoint insert {A} (x : Z * A) (l : list (Z * A)) : list (Z * A) :=
  match l with
  | [] => [x]
  | y :: l' => if fst x <=? fst y then x :: y :: l' else y :: insert x l'
  end.

Definition sort {A} (l : list (Z * A)) : list (Z * A) := fold_right insert [] l.

(** [pending_tasks] after the sort. *)
Definition pending_tasks (all_tasks : list value) : res (list (nat * value)) :=
  match pending_from 0 all_tasks with
  | Throw e => Throw e
  | Return l =>
      match keyed l with
      | Throw e => Throw e
      | Return kl => Return (map snd (sort kl))
      end
  end.

(** [[t for t in all_tasks if t.get(key) == text]] *)
Fixpoint select (key text : string) (tasks : list value) : res (list value) :=
  match tasks with
  | [] => Return []
  | t :: rest =>
      match field_is key text t with
      | Throw e => Throw e
      | Return b =>
          match select key text rest with
          | Throw e => Throw e
          | Return l => Return (if b then t :: l else l)
          end
      end
  end.

Definition completed_tasks (all_tasks : list value) : res (list value) :=
  select "status" "completed" all_tasks.

(** [all_tasks[task_index][k1] = v1; ...]: the list in memory after the
    assignments, which the script's own [save_tasks] then dumps with the
    default [ensure_ascii], so that every text can be written. *)
Definition assign (all_tasks : list value) (task_index : Z)
    (updates : list (string * value)) : res (list value) :=
  match position all_tasks task_index with
  | None => Throw (Builtin IndexError)
  | Some n =>
      match nth_error all_tasks n with
      | Some (VDict d) =>
          Return (list_set n (VDict (fold_left (fun d kv => dict_set (fst kv) (snd kv) d)
                                               updates d)) all_tasks)
      | Some _ => Throw TypeError
      | None => Throw (Builtin IndexError)
      end
  end.

(** [mark_task_complete(task_index)] at the instant [now]. *)
Definition mark_task_complete (all_tasks : list value) (now : datetime) (task_index : Z)
  : res (list value) :=
  assign all_tasks task_index
    [("status", VStr "completed"); ("completed_date", VStr (strftime_full now))].

Definition reminder_map : list (string * Z) :=
  [("1 hour before", 1); ("1 day before", 24); ("2 days before", 48);
   ("1 week before", 168); ("On due date", 0)].

(** [reminder_map.get(option, 0)] *)
Fixpoint reminder_hours (option : string) (m : list (string * Z)) : Z :=
  match m with
  | [] => 0
  | (k, h) :: m' => if (k =? option)%string then h else reminder_hours option m'
  end.

(** [set_reminder(task_index, reminder_option)] *)
Definition set_reminder (all_tasks : list value) (task_index : Z) (reminder_option : string)
  : res (list value) :=
  assign all_tasks task_index
    [("reminder", VStr reminder_option);
     ("reminder_hours", VInt (reminder_hours reminder_option reminder_map))].

End Dashboard.

(** ** Vocabulary for the statements about the remaining code *)

Module Shapes.
Import PyStr Py Store TaskAgent PyMore.

(** The value under [key] of the [i]-th record, when there is one. *)
Definition cell (tasks : list value) (i : nat) (key : string) : option value :=
  match nth_error tasks i with
  | Some (VDict d) => dict_get key d
  | _ => None
  end.

(** The action returned a dictionary with [success] true. *)
Definition succeeded (r : res Outcome) : bool :=
  match r with
  | Return out => success out
  | Throw _ => false
  end.

(** The keys that an action of [process_task_action] assigns. *)
Definition touched (action_type : string) : list string :=
  if (action_type =? "complete")%string then ["status"; "completed_date"; "agent_notes"]
  else if (action_type =? "set_reminder")%string then
    ["reminder_hours"; "reminder"; "reminder_triggered"]
  else if (action_type =? "reassign")%string then ["owner"]
  else if (action_type =? "comment")%string then ["comments"]
  else [].

Definition mentions (keys : list string) (key : string) : bool :=
  existsb (String.eqb key) keys.

(** The list under [key] of a record; empty when the key is missing. *)
Definition entries (key : string) (d : list (string * value)) : list value :=
  match dict_get key d with
  | Some (VList l) => l
  | _ => []
  end.

(** The list under [key] of the [n]-th record. *)
Definition entries_at (key : string) (tasks : list value) (n : nat) : list value :=
  match nth_error tasks n with
  | Some (VDict d) => entries key d
  | _ => []
  end.

(** What a call of an action did to the file.  Without success and without
    a failed write: nothing.  With a write that failed on a text that cannot
    be encoded: the exception, and a file that is no JSON.  With success: it
    replaced the record that the reference resolves to by one that agrees
    with it outside [keys]. *)
Definition updated (keys : list string) (st : storage) (ref : task_ref)
    (r : res Outcome) (st' : storage) : Prop :=
  (succeeded r = false /\ st' = st)
  \/ (r = Throw (Builtin UnicodeEncodeError) /\ st' = Garbled)
  \/ exists tasks n d d' msg,
       load_tasks st = Ok tasks
       /\ _find_task_index st ref = Ok (Some (Z.of_nat n))
       /\ nth_error tasks n = Some (VDict d)
       /\ r = Return (mk_outcome true msg (Some (Z.of_nat n)))
       /\ st' = Stored (list_set n (VDict d') tasks)
       /\ (forall k, mentions keys k = false -> dict_get k d' = dict_get k d).

(** The call raised inside [save_tasks], after the file was truncated. *)
Definition write_failed (r : res Outcome) : bool :=
  match r with
  | Throw (Builtin UnicodeEncodeError) => true
  | _ => false
  end.

(** A record as [main.py] writes it: a non-empty text under "task", the
    status "pending", and under "priority" the tier that is also under
    "confidence". *)
Definition fresh_task (t : value) : bool :=
  match t with
  | VDict d =>
      match dict_get "task" d, dict_get "status" d,
            dict_get "priority" d, dict_get "confidence" d with
      | Some (VStr s), Some (VStr st), Some (VStr p), Some (VStr c) =>
          negb (s =? "")%string && (st =? "pending")%string && (p =? c)%string
          && existsb (String.eqb p) ["high"; "medium"; "low"]
      | _, _, _, _ => false
      end
  | _ => false
  end.

(** The e-mails for which a task-assigning branch is taken. *)
Definition actionable (emails : list Main.Email) : list Main.Email :=
  filter (fun e => Conditions.rule_matched (Main.e_body e) "email" (Main.e_subject e))
         emails.

(** The value under "task" of a record. *)
Definition task_of (t : value) : option value :=
  match t with
  | VDict d => dict_get "task" d
  | _ => None
  end.

(** A collection with three pending records and a completed one. *)
Definition demo_board : list value :=
  [VDict [("task", VStr "a"); ("status", VStr "pending"); ("priority", VStr "low")];
   VDict [("task", VStr "b"); ("status", VStr "completed"); ("priority", VStr "high")];
   VDict [("task", VStr "c"); ("status", VStr "pending"); ("priority", VStr "high")];
   VDict [("task", VStr "d"); ("status", VStr "pending"); ("priority", VStr "low")]].

(** The order of the keys that [list.sort] compares. *)
Definition by_key {A} (x y : Z * A) : Prop := fst x <= fst y.

(** The sort key of a record that has one. *)
Definition rank (t : value) : Z :=
  match Dashboard.priority_key t with
  | Return k => k
  | Throw _ => 3
  end.

End Shapes.

(** ** The Python primitives on sample values *)

Module PyProps.
Import PyStr Clock Py.

Example lower_sample : lower "Please CHECK the Logs, @Ops [1]" = "please check the logs, @ops [1]".
Proof. reflexivity. Qed.

Example py_in_samples :
  "" <in> "" = true /\ "logs" <in> "the logs" = true /\ "logs" <in> "log s" = false.
Proof. repeat split. Qed.

Example take_samples : take 3 "abcdef" = "abc" /\ take 50 "ab" = "ab".
Proof. split; reflexivity. Qed.

Example py_int_accepts :
  map py_int ["5"; " 5 "; "+5"; "-1"; "007"; "5_0"; "-0"]
  = [Some 5; Some 5; Some 5; Some (-1); Some 7; Some 50; Some 0].
Proof. reflexivity. Qed.

Example py_int_rejects :
  map py_int [""; "_5"; "5_"; "5__0"; "+ 5"; "--5"; "+"; "0x10"; "1.0"; "5 5"; "+_5"; "two"]
  = repeat None 12.
Proof. reflexivity. Qed.

Example str_samples :
  str VNone = "None" /\ str (VStr "Ravindu") = "Ravindu" /\ str (VBool true) = "True"
  /\ str (VInt (-5)) = "-5"
  /\ str (VDict [("k", VNone); ("j", VList [VInt 1; VBool false; VStr "it's"])])
     = String.concat (String dquote EmptyString) ["{'k': None, 'j': [1, False, "; "it's"; "]}"].
Proof. repeat split. Qed.

Example ordinals :
  ymd2ord 1 1 1 = 1 /\ ymd2ord 2024 2 29 = 738945 /\ ymd2ord 2026 11 3 = 739923
  /\ ord2ymd 693655 = (1900, 3, 1) /\ ord2ymd 730485 = (2000, 12, 31)
  /\ ord2ymd 3652059 = (9999, 12, 31).
Proof. repeat split. Qed.

Example deadlines_cross_month_and_year :
  strftime_ymd (plus_days (mk_datetime 2026 12 30 23 59 59 0) 5) = "2027-01-04"
  /\ strftime_ymd (plus_days (mk_datetime 2024 2 28 8 0 0 0) 1) = "2024-02-29"
  /\ strftime_ymd (plus_days (mk_datetime 2026 2 28 8 0 0 0) 1) = "2026-03-01".
Proof. repeat split. Qed.

End PyProps.

(** ** Properties of [extract_task] *)

Module ExtractorProps.
Import PyStr Clock TaskExtractor Conditions.

Lemma fst_extract_task log now content src subject :
  fst (extract_task log now content src subject) =
  let '(t, a, d, c) := rules now content src subject in
  mk_candidate t a d c src subject.
Proof.
  unfold extract_task.
  destruct (rules now content src subject) as [[[t a] d] c]. reflexivity.
Qed.

(** The returned dictionary never depends on the list. *)
Lemma extract_task_ignores_log log log' now content src subject :
  fst (extract_task log now content src subject) =
  fst (extract_task log' now content src subject).
Proof. now rewrite !fst_extract_task. Qed.

(** C1.  An e-mail whose lower-cased buffer (content, a space, subject)
    contains "revised document" yields the task "Send the revised
    document" for Ravindu, due "Friday", with high confidence, whatever
    else the buffer contains: the first branch of the chain wins. *)
Theorem extract_task_revised_document :
  forall log now content subject,
    "revised document" <in> combined content subject = true ->
    fst (extract_task log now content "email" subject) =
    mk_candidate (Some "Send the revised document") "Ravindu" (Some "Friday")
                 "high" "email" subject.
Proof.
  intros log now content subject H.
  rewrite fst_extract_task. unfold rules. cbv zeta.
  rewrite H. reflexivity.
Qed.

(** The scenario of the specification. *)
Lemma extract_task_revised_document_witness :
  "revised document" <in>
     combined "Please send the revised document by Friday" "Document Update" = true
  /\ fst (extract_task [] demo_now "Please send the revised document by Friday"
                       "email" "Document Update") =
     mk_candidate (Some "Send the revised document") "Ravindu" (Some "Friday")
                  "high" "email" "Document Update".
Proof.
  split; [reflexivity | apply extract_task_revised_document; reflexivity].
Defined.

(** A buffer with both "revised document" and "invoice". *)
Example revised_document_beats_invoice :
  fst (extract_task [] demo_now "The invoice is attached to the REVISED document"
                    "email" "Invoice 42") =
  mk_candidate (Some "Send the revised document") "Ravindu" (Some "Friday")
               "high" "email" "Invoice 42".
Proof. reflexivity. Qed.

Ltac finish_branch :=
  simpl; repeat split; try discriminate; eauto 7.

(** Take the first branch of the chain whose scrutinee can be decided. *)
Ltac chain_step :=
  match goal with
  | |- context [if ?c then _ else _] =>
      destruct c eqn:?; [solve [finish_branch] | ]
  end.

(** What the chain leaves in the four locals. *)
Lemma rules_invariant now content src subject :
  let '(t, a, d, c) := rules now content src subject in
  present t = rule_matched content src subject
  /\ match t with
     | None => d = None /\ c = "low"
     | Some s => s <> "" /\ (exists x, d = Some x) /\ In c ["high"; "medium"; "low"]
     end.
Proof.
  unfold rules, rule_matched, email_action_rule, no_task_marker, polite.
  cbv zeta.
  destruct (src =? "email")%string.
  - repeat chain_step. finish_branch.
  - destruct (src =? "calendar")%string; [repeat chain_step; finish_branch |].
    destruct (src =? "slack")%string; [repeat chain_step; finish_branch |].
    finish_branch.
Qed.

(** C4, as the code has it.  The returned dictionary has a task exactly
    when the branch taken is one that assigns a task: for an e-mail, a
    condition above the no-action branch holds, or a politeness marker is
    present and no no-task marker is.  Without a task the deadline is
    absent and the confidence is "low"; with a task the deadline is set and
    the confidence is one of "high", "medium", "low". *)
Theorem extract_task_output_invariant :
  forall log now content src subject,
    let r := fst (extract_task log now content src subject) in
    present (task r) = rule_matched content src subject
    /\ match task r with
       | None => deadline r = None /\ confidence r = "low"
       | Some _ =>
           (exists d, deadline r = Some d)
           /\ In (confidence r) ["high"; "medium"; "low"]
       end.
Proof.
  intros log now content src subject. cbv zeta.
  rewrite fst_extract_task.
  pose proof (rules_invariant now content src subject) as H.
  destruct (rules now content src subject) as [[[t a] d] c]. cbn.
  destruct H as [Hm Hs]. split; [exact Hm |].
  destruct t; [destruct Hs as (_ & Hd & Hc); now split | exact Hs].
Qed.

(** C4, as stated, fails: the condition of the politeness branch holds for
    this e-mail (and so does that of the no-action branch), and the result
    has no task. *)
Lemma condition_holds_without_task :
  some_condition_holds "FYI, please note the new office hours" "email" "Notice" = true
  /\ polite (combined "FYI, please note the new office hours" "Notice") = true
  /\ task (fst (extract_task [] demo_now "FYI, please note the new office hours"
                             "email" "Notice")) = None
  /\ present (task (fst (extract_task [] demo_now "FYI, please note the new office hours"
                                      "email" "Notice")))
     <> some_condition_holds "FYI, please note the new office hours" "email" "Notice".
Proof. repeat split. discriminate. Qed.

(** The list grows by one entry, stamped [now], exactly when a task was
    found. *)
Lemma extract_task_log log now content src subject :
  let '(r, log') := extract_task log now content src subject in
  log' = if present (task r) then (log ++ [mk_confirmed r now])%list else log.
Proof.
  unfold extract_task.
  pose proof (rules_invariant now content src subject) as H.
  destruct (rules now content src subject) as [[[t a] d] c]. cbn.
  destruct t as [s|]; [| reflexivity].
  destruct H as (_ & Hs & _). destruct s; [now elim Hs | reflexivity].
Qed.

(** C5.  The returned dictionary does not depend on [confirmed_tasks]:
    any two lists give the same result at the same instant, and so does a
    second call made on the list the first call left behind. *)
Theorem extract_task_pure :
  forall log log' now content src subject,
    fst (extract_task log now content src subject) =
    fst (extract_task log' now content src subject)
    /\ fst (extract_task (snd (extract_task log now content src subject))
                         now content src subject) =
       fst (extract_task log now content src subject).
Proof.
  intros. split; apply extract_task_ignores_log.
Qed.

(** C2, as the code has it.  When no branch above the no-action branch is
    taken, the no-task markers are tested first and leave the task absent
    (confidence "low", no deadline) even if a politeness marker is present;
    only without any no-task marker does a politeness marker give the
    low-confidence task "Review and respond: " followed by the first 50
    characters of the subject, due in two days; otherwise there is no
    task. *)
Theorem email_catch_all :
  forall log now content subject,
    email_action_rule (combined content subject) (lower subject) = false ->
    fst (extract_task log now content "email" subject) =
    if no_task_marker (combined content subject) then
      mk_candidate None "You" None "low" "email" subject
    else if polite (combined content subject) then
      mk_candidate (Some ("Review and respond: " ++ take 50 subject)) "You"
                   (Some (in_days now 2)) "low" "email" subject
    else mk_candidate None "You" None "low" "email" subject.
Proof.
  intros log now content subject H.
  rewrite fst_extract_task.
  unfold rules, email_action_rule, no_task_marker, polite in *. cbv zeta.
  repeat (apply orb_false_elim in H; destruct H as [H ?]).
  repeat match goal with
         | E : ?c = false |- context [?c] => rewrite E
         end.
  cbn [orb String.eqb Ascii.eqb Bool.eqb].
  repeat match goal with
         | |- context [if ?c then _ else _] => destruct c
         end; reflexivity.
Qed.

Lemma email_catch_all_witness :
  email_action_rule (combined "Could you look into this?" "Hello")
                    (lower "Hello") = false
  /\ fst (extract_task [] demo_now "Could you look into this?" "email" "Hello") =
     mk_candidate (Some "Review and respond: Hello") "You" (Some "2026-11-05")
                  "low" "email" "Hello".
Proof.
  split; [reflexivity |].
  exact (email_catch_all [] demo_now "Could you look into this?" "Hello" eq_refl).
Defined.

(** C2, as stated, fails: a buffer with "please" and "fyi" that no earlier
    branch takes gives no task. *)
Lemma no_task_marker_beats_politeness :
  email_action_rule (combined "FYI, please note the new office hours" "Notice")
                    (lower "Notice") = false
  /\ polite (combined "FYI, please note the new office hours" "Notice") = true
  /\ "fyi" <in> combined "FYI, please note the new office hours" "Notice" = true
  /\ fst (extract_task [] demo_now "FYI, please note the new office hours"
                       "email" "Notice") =
     mk_candidate None "You" None "low" "email" "Notice".
Proof. repeat split. Qed.

(** C3, as the code has it.  The e-mail branch tests the buffer (the
    lower-cased content, a space, the lower-cased subject), except for the
    marker "urgent", which it tests on the lower-cased subject alone: two
    e-mails with the same buffer and the same answer to "urgent" in the
    subject get the same assignee, deadline and confidence, a task or none
    alike, and the same task text when the first 50 characters of their
    subjects agree.  The Slack and calendar branches test the lower-cased
    content alone, so the channel or subject only shows in the echoed field.
    Slack content "please check the logs" gives "Check server logs" with
    confidence "medium". *)
Theorem channel_rules_read_content_only :
  forall log now content subject,
    fst (extract_task log now content "slack" subject) =
      (if "check" <in> lower content && "logs" <in> lower content then
         mk_candidate (Some "Check server logs") "You" (Some (in_days now 1))
                      "medium" "slack" subject
       else if "deployment" <in> lower content then
         mk_candidate (Some "Update deployment checklist") "You"
                      (Some (in_days now 2)) "medium" "slack" subject
       else mk_candidate None "You" None "low" "slack" subject)
    /\ fst (extract_task log now content "calendar" subject) =
      (if "prepare" <in> lower content then
         mk_candidate (Some "Prepare meeting summary") "You" (Some (in_days now 1))
                      "high" "calendar" subject
       else mk_candidate None "You" None "low" "calendar" subject)
    /\ (forall content' subject',
          combined content' subject' = combined content subject ->
          "urgent" <in> lower subject' = "urgent" <in> lower subject ->
          let r := fst (extract_task log now content "email" subject) in
          let r' := fst (extract_task log now content' "email" subject') in
          assignee r' = assignee r
          /\ deadline r' = deadline r
          /\ confidence r' = confidence r
          /\ present (task r') = present (task r)
          /\ (take 50 subject' = take 50 subject -> task r' = task r))
    /\ fst (extract_task log now "please check the logs" "slack" subject) =
       mk_candidate (Some "Check server logs") "You" (Some (in_days now 1))
                    "medium" "slack" subject.
Proof.
  intros log now content subject.
  rewrite !fst_extract_task. unfold rules. cbv zeta.
  cbn [String.eqb Ascii.eqb Bool.eqb].
  split; [| split; [| split]].
  - repeat match goal with
           | |- context [if ?c then _ else _] => destruct c
           end; reflexivity.
  - destruct ("prepare" <in> lower content); reflexivity.
  - intros content' subject' Hb Hu. cbv zeta.
    rewrite !fst_extract_task. unfold rules. cbv zeta.
    cbn [String.eqb Ascii.eqb Bool.eqb]. rewrite Hb, Hu.
    repeat match goal with
           | |- context [if ?c then _ else _] =>
               destruct c;
               [ cbn [assignee deadline confidence task present];
                 solve [repeat split; intros Ht; rewrite ?Ht; reflexivity] | ]
           end.
    cbn [assignee deadline confidence task present]. repeat split.
  - reflexivity.
Qed.

(** Two e-mails with one buffer: the word "invoice" is in the subject of
    the first and in the content of the second. *)
Lemma channel_rules_read_content_only_witness :
  (combined "Send invoice" "now" = combined "send" "Invoice now"
   /\ "urgent" <in> lower "now" = "urgent" <in> lower "Invoice now")
  /\ confidence (fst (extract_task [] demo_now "Send invoice" "email" "now"))
     = confidence (fst (extract_task [] demo_now "send" "email" "Invoice now"))
  /\ confidence (fst (extract_task [] demo_now "send" "email" "Invoice now")) = "medium".
Proof.
  split; [split; reflexivity |]. split; [| reflexivity].
  exact (proj1 (proj2 (proj2
           (proj1 (proj2 (proj2
              (channel_rules_read_content_only [] demo_now "send" "Invoice now")))
              "Send invoice" "now" eq_refl eq_refl)))).
Defined.

(** The marker "urgent" counts in the subject only. *)
Example urgent_in_content_is_not_matched :
  task (fst (extract_task [] demo_now "URGENT" "email" "Hello")) = None
  /\ task (fst (extract_task [] demo_now "Hello" "email" "URGENT"))
     = Some "Complete urgent task: URGENT".
Proof. split; reflexivity. Qed.

(** C3, as stated, fails: the buffer of this Slack message contains
    "deployment" through its channel name, and no task comes out. *)
Lemma slack_channel_name_is_not_matched :
  "deployment" <in> combined "hello team" "deployment" = true
  /\ fst (extract_task [] demo_now "hello team" "slack" "deployment") =
     mk_candidate None "You" None "low" "slack" "deployment"
  /\ task (fst (extract_task [] demo_now "hello team" "slack" "deployment"))
     <> Some "Update deployment checklist".
Proof. repeat split. discriminate. Qed.

(** The same for the calendar branch. *)
Example calendar_subject_is_not_matched :
  fst (extract_task [] demo_now "Weekly sync" "calendar" "Prepare slides") =
  mk_candidate None "You" None "low" "calendar" "Prepare slides".
Proof. reflexivity. Qed.

(** The second scenario of the specification for e-mail. *)
Example fyi_deployment_resolved :
  fst (extract_task [] demo_now "FYI, deployment resolved" "email" "") =
  mk_candidate None "You" None "low" "email" "".
Proof. reflexivity. Qed.

End ExtractorProps.

(** ** Properties of the task store and of [reassign] *)

Module StoreProps.
Import PyStr Py Store TaskAgent AgentSpec.

Lemma in_bounds_true (i n : Z) : 0 <= i < n -> (0 <=? i) && (i <? n) = true.
Proof. intros [H1 H2]. apply andb_true_intro. split; [apply Z.leb_le | apply Z.ltb_lt]; lia. Qed.

Lemma in_bounds_false (i n : Z) : i < 0 \/ n <= i -> (0 <=? i) && (i <? n) = false.
Proof.
  intros H. apply andb_false_iff.
  destruct H; [left; apply Z.leb_gt | right; apply Z.ltb_ge]; lia.
Qed.

(** C8, where the code departs from it: a file that exists and cannot be
    opened makes [load_tasks] raise, because [open] is evaluated outside
    the [try]. *)
Theorem load_tasks_open_failure_raises :
  load_tasks Unopenable = Raise OSError.
Proof. reflexivity. Qed.

(** The two conditions that the code does absorb. *)
Lemma load_tasks_missing_or_garbled :
  load_tasks Missing = Ok [] /\ load_tasks Garbled = Ok [].
Proof. split; reflexivity. Qed.

(** What was saved is what is loaded, when the file can be written and
    every text can be encoded. *)
Lemma load_after_save st tasks :
  fst (save_tasks st tasks) = Ok tt ->
  load_tasks (snd (save_tasks st tasks)) = Ok tasks.
Proof.
  unfold save_tasks.
  destruct st; try discriminate; destruct (forallb encodable tasks);
    try discriminate; reflexivity.
Qed.

(** A text with a lone surrogate stops the write after the file was
    truncated: the collection is lost. *)
Example save_tasks_lone_surrogate :
  let lone := String (ascii_of_N 237) (String (ascii_of_N 160) (String (ascii_of_N 189) "")) in
  save_tasks (Stored demo_tasks) [VDict [("task", VStr lone)]]
  = (Raise UnicodeEncodeError, Garbled)
  /\ load_tasks Garbled = Ok [].
Proof. split; reflexivity. Qed.

Lemma first_match_none q tasks :
  no_description_has q tasks = true ->
  forall i, first_match q tasks i = Ok None.
Proof.
  induction tasks as [| t rest IH]; intros H i; [reflexivity |].
  cbn in H. apply andb_prop in H. destruct H as [Ht Hrest].
  cbn [first_match]. destruct (description t) as [d | e]; [| discriminate].
  cbn [bind]. apply negb_true_iff in Ht. rewrite Ht. now apply IH.
Qed.

Lemma find_nothing st tasks ref :
  load_tasks st = Ok tasks ->
  resolves_to_nothing tasks ref = true ->
  _find_task_index st ref = Ok None.
Proof.
  intros Hl Hr. unfold _find_task_index. rewrite Hl. cbn [bind].
  destruct ref as [i | s]; cbn [resolves_to_nothing] in Hr.
  - rewrite in_bounds_false; [reflexivity |].
    apply orb_prop in Hr. destruct Hr as [H | H];
      [left; now apply Z.ltb_lt | right; now apply Z.leb_le].
  - destruct (numeric_index s tasks); [discriminate |].
    now apply first_match_none.
Qed.

(** [resolves_to_nothing] is exactly the case in which the resolution
    returns [None]. *)
Lemma first_match_none_inv q tasks :
  forall i, first_match q tasks i = Ok None -> no_description_has q tasks = true.
Proof.
  induction tasks as [| t rest IH]; intros i H; [reflexivity |].
  cbn [first_match] in H. cbn [no_description_has forallb].
  destruct (description t) as [d | e]; [| discriminate].
  cbn [bind] in H. destruct (q <in> d); [discriminate |].
  cbn [negb andb]. exact (IH _ H).
Qed.

Lemma find_nothing_iff st tasks ref :
  load_tasks st = Ok tasks ->
  _find_task_index st ref = Ok None <-> resolves_to_nothing tasks ref = true.
Proof.
  intros Hl. split; [| now apply find_nothing].
  unfold _find_task_index. rewrite Hl. cbn [bind].
  destruct ref as [i | s]; cbn [resolves_to_nothing].
  - destruct (0 <=? i) eqn:H0; destruct (i <? len tasks) eqn:H1;
      cbn [andb]; try discriminate; intros _; apply orb_true_iff.
    + right. apply Z.leb_le. apply Z.ltb_ge in H1. lia.
    + left. apply Z.ltb_lt. apply Z.leb_gt in H0. lia.
    + left. apply Z.ltb_lt. apply Z.leb_gt in H0. lia.
  - destruct (numeric_index s tasks); [discriminate |].
    apply first_match_none_inv.
Qed.

(** [reassign] writes only after the reference was resolved. *)
Lemma reassign_unresolved st ref new_owner :
  _find_task_index st ref = Ok None ->
  reassign st ref new_owner = (Ok (mk_outcome false "Task not found" None), st).
Proof. intros H. unfold reassign. now rewrite H. Qed.

(** Where the collection loads and every description can be read,
    [reassign] with a reference that names no task (an integer out of
    bounds, or a text that is no index within bounds and occurs in no
    description) returns the failure dictionary, raises nothing, and leaves
    the file as it was. *)
Theorem reassign_not_found :
  forall st tasks ref new_owner,
    load_tasks st = Ok tasks ->
    resolves_to_nothing tasks ref = true ->
    reassign st ref new_owner =
    (Ok (mk_outcome false "Task not found" None), st).
Proof.
  intros st tasks ref new_owner Hl Hr.
  apply reassign_unresolved. now apply find_nothing with tasks.
Qed.

Lemma reassign_not_found_witness :
  (load_tasks (Stored demo_tasks) = Ok demo_tasks
   /\ resolves_to_nothing demo_tasks (RefStr "Invoice") = true
   /\ resolves_to_nothing demo_tasks (RefInt 2) = true)
  /\ reassign (Stored demo_tasks) (RefStr "Invoice") "Ann" =
     (Ok (mk_outcome false "Task not found" None), Stored demo_tasks)
  /\ reassign (Stored demo_tasks) (RefInt 2) "Ann" =
     (Ok (mk_outcome false "Task not found" None), Stored demo_tasks).
Proof.
  split; [repeat split |].
  split.
  - exact (reassign_not_found (Stored demo_tasks) demo_tasks (RefStr "Invoice") "Ann"
             eq_refl eq_refl).
  - exact (reassign_not_found (Stored demo_tasks) demo_tasks (RefInt 2) "Ann"
             eq_refl eq_refl).
Defined.

(** C7, where the code departs from it.  With a file that exists and cannot
    be opened, [reassign] with the index 5 raises the [OSError] that
    [load_tasks] lets through, instead of returning the failure dictionary;
    with a record whose "task" is [None], the text "zzz", which occurs in no
    description, raises [AttributeError].  The file is as before in both
    cases. *)
Theorem reassign_raises_on_unresolved_reference :
  reassign Unopenable (RefInt 5) "Ann" = (Raise OSError, Unopenable)
  /\ reassign (Stored [VDict [("task", VNone)]]) (RefStr "zzz") "Ann"
     = (Raise AttributeError, Stored [VDict [("task", VNone)]]).
Proof. split; reflexivity. Qed.

(** For contrast: a reference that resolves does rewrite the file. *)
Example reassign_found :
  reassign (Stored demo_tasks) (RefStr "BOOKS") "Ann" =
  (Ok (mk_outcome true "Reassigned from Ravindu to Ann" (Some 1)),
   Stored [VDict [("task", VStr "Call 1 client"); ("owner", VStr "You")];
           VDict [("task", VStr "Buy 2 books"); ("owner", VStr "Ann")]]).
Proof. reflexivity. Qed.

(** An empty or absent store resolves nothing. *)
Example reassign_on_missing_store :
  reassign Missing (RefInt 0) "Ann" =
  (Ok (mk_outcome false "Task not found" None), Missing).
Proof. reflexivity. Qed.

(** C10.  On a store that loads: a text reference that [int] accepts and
    that lies within bounds resolves to that position, whatever the
    descriptions say; an integer reference below zero or not below the
    length resolves to nothing, and a text reference with such a value is
    resolved by the description search alone. *)
Theorem find_task_index_numeric_first :
  forall st tasks,
    load_tasks st = Ok tasks ->
    (forall s i,
        py_int s = Some i -> 0 <= i < len tasks ->
        _find_task_index st (RefStr s) = Ok (Some i))
    /\ (forall i,
          i < 0 \/ len tasks <= i ->
          _find_task_index st (RefInt i) = Ok None
          /\ forall s,
               py_int s = Some i ->
               _find_task_index st (RefStr s) = first_match (lower s) tasks 0).
Proof.
  intros st tasks Hl. unfold _find_task_index. rewrite Hl. cbn [bind].
  split.
  - intros s i Hs Hi. unfold numeric_index. rewrite Hs.
    now rewrite in_bounds_true.
  - intros i Hi. split.
    + now rewrite in_bounds_false.
    + intros s Hs. unfold numeric_index. rewrite Hs.
      now rewrite in_bounds_false.
Qed.

(** No description is read for such a reference: the record at position 0
    has no text under "task", which stops the search for "call" and does
    not disturb the reference "0". *)
Example numeric_reference_reads_no_description :
  let broken := Stored [VDict [("task", VNone)]; VDict [("task", VStr "Call Ann")]] in
  _find_task_index broken (RefStr "0") = Ok (Some 0)
  /\ _find_task_index broken (RefStr "call") = Raise AttributeError.
Proof. split; reflexivity. Qed.

(** The reference "1" goes to position 1, although the description at
    position 0 is the one that contains "1"; "7" is out of bounds and is
    searched for as text. *)
Lemma find_task_index_numeric_first_witness :
  (load_tasks (Stored demo_tasks) = Ok demo_tasks
   /\ py_int "1" = Some 1 /\ 0 <= 1 < len demo_tasks
   /\ description (VDict [("task", VStr "Call 1 client"); ("owner", VStr "You")])
      = Ok "call 1 client")
  /\ _find_task_index (Stored demo_tasks) (RefStr "1") = Ok (Some 1)
  /\ _find_task_index (Stored demo_tasks) (RefInt 7) = Ok None
  /\ _find_task_index (Stored demo_tasks) (RefStr "7") = Ok None.
Proof.
  pose proof (find_task_index_numeric_first (Stored demo_tasks) demo_tasks eq_refl)
    as [Hin Hout].
  split; [repeat split; try reflexivity; unfold len; simpl; lia |].
  split; [apply (Hin "1" 1); [reflexivity | unfold len; simpl; lia] |].
  assert (H7 : 7 < 0 \/ len demo_tasks <= 7) by (right; unfold len; simpl; lia).
  destruct (Hout 7 H7) as [Hi Hs].
  split; [exact Hi |]. rewrite (Hs "7" eq_refl). reflexivity.
Defined.

End StoreProps.

(** ** Properties of the two intent strategies *)

Module AgentProps.
Import PyStr Py TaskAgent AgentSpec.

Ltac split_ifs :=
  repeat match goal with
         | |- context [if ?c then _ else _] => destruct c eqn:?
         end.

(** C9.  The confidence that [TaskAgent.get_response] returns is the tier
    that the table gives for the returned action (complete: high, guide:
    medium, send: high, schedule: medium, reassign: medium, acknowledge:
    low), and the message "I'm done with this" gives action "complete"
    with confidence "high". *)
Theorem get_response_confidence_tier :
  forall task_description user_message task_owner,
    let r := TaskAgent.get_response task_description user_message task_owner in
    tier (action r) tier_table = Some (confidence r)
    /\ action (TaskAgent.get_response task_description "I'm done with this" task_owner)
       = "complete"
    /\ confidence (TaskAgent.get_response task_description "I'm done with this" task_owner)
       = "high".
Proof.
  intros td msg owner. cbv zeta. split; [| split; reflexivity].
  unfold TaskAgent.get_response. cbv zeta. split_ifs; reflexivity.
Qed.

(** Without a pipeline the enhanced agent is the rule-based one. *)
Lemma nlp_get_response_without_pipeline td msg owner :
  NLPAgent.get_response None td msg owner = TaskAgent.get_response td msg owner.
Proof. reflexivity. Qed.

(** The root verb is consulted only when no keyword group occurs. *)
Lemma extract_intent_keywords_first nlp msg :
  intent_keyword_hit (lower msg) = true ->
  NLPAgent._extract_intent nlp msg = NLPAgent._extract_intent None msg.
Proof.
  unfold intent_keyword_hit, NLPAgent._extract_intent. cbv zeta.
  split_ifs; try reflexivity. discriminate.
Qed.

(** C6, as the code has it.  The enhanced agent returns the action and the
    confidence of the rule-based agent, except when a pipeline is loaded, no
    keyword group of [_extract_intent] occurs in the message and the first
    root token with a lemma in the vocabulary has the lemma "complete":
    then it returns action "complete" with confidence "high".  Without a
    pipeline the two replies are equal. *)
Theorem nlp_get_response_vs_rule_based :
  forall nlp task_description user_message task_owner,
    let r := NLPAgent.get_response nlp task_description user_message task_owner in
    let r0 := TaskAgent.get_response task_description user_message task_owner in
    (action r, confidence r) =
      match nlp with
      | None => (action r0, confidence r0)
      | Some parse =>
          if intent_keyword_hit (lower user_message) then (action r0, confidence r0)
          else match NLPAgent.root_lemma (parse user_message) with
               | Some lemma =>
                   if (lemma =? "complete")%string then ("complete", "high")
                   else (action r0, confidence r0)
               | None => (action r0, confidence r0)
               end
      end
    /\ NLPAgent.get_response None task_description user_message task_owner = r0.
Proof.
  intros nlp td msg owner. cbv zeta. split; [| reflexivity].
  destruct nlp as [parse |]; [| reflexivity].
  unfold NLPAgent.get_response, NLPAgent._extract_intent, intent_keyword_hit,
    TaskAgent.get_response.
  cbv zeta.
  destruct (any_in ["done"; "completed"; "finished"; "complete"] (lower msg));
    [reflexivity |].
  destruct (any_in ["help"; "how"; "guide"; "steps"; "what"] (lower msg));
    [reflexivity |].
  destruct (any_in ["schedule"; "book"; "meeting"; "call"; "time"; "date"] (lower msg));
    [reflexivity |].
  destruct (any_in ["send"; "email"; "submit"] (lower msg)); [reflexivity |].
  destruct (any_in ["approve"; "approve this"; "sign off"; "authorize"] (lower msg));
    [reflexivity |].
  destruct (any_in ["reassign"; "assign to"; "assign"] (lower msg)); [reflexivity |].
  cbn [orb].
  destruct (NLPAgent.root_lemma (parse msg)) as [lemma |]; [| reflexivity].
  destruct (lemma =? "complete")%string; [reflexivity |].
  destruct (existsb (String.eqb lemma)
              ["send"; "schedule"; "approve"; "review"; "process"; "reassign"]);
    reflexivity.
Qed.

(** C6, as stated, fails: with a pipeline that parses "I am completing it"
    to the root verb "complete", the enhanced agent answers complete/high
    and the rule-based agent acknowledge/low. *)
Lemma nlp_strategy_differs :
  let r := NLPAgent.get_response demo_pipeline "Send the report" "I am completing it" "You" in
  let r0 := TaskAgent.get_response "Send the report" "I am completing it" "You" in
  (action r = "complete" /\ confidence r = "high")
  /\ (action r0 = "acknowledge" /\ confidence r0 = "low")
  /\ action r <> action r0.
Proof. cbv zeta. repeat split. discriminate. Qed.

End AgentProps.

(** ** More about [extract_task] *)

Module ExtractorMore.
Import PyStr Clock TaskExtractor Conditions.

Lemma lower_char_idem c : lower_char (lower_char c) = lower_char c.
Proof. destruct c as [[] [] [] [] [] [] [] []]; reflexivity. Qed.

Lemma lower_idem s : lower (lower s) = lower s.
Proof. induction s as [| c s IH]; cbn; [reflexivity | now rewrite lower_char_idem, IH]. Qed.

Lemma length_take n s : (String.length (take n s) <= n)%nat.
Proof.
  revert s. induction n as [| n IH]; intros [| c s]; cbn; try lia.
  specialize (IH s). lia.
Qed.

#[local] Arguments take : simpl never.

Lemma prefix_nil t : String.prefix "" t = true.
Proof. destruct t; reflexivity. Qed.

Lemma py_in_nil t : "" <in> t = true.
Proof. destruct t; reflexivity. Qed.

Lemma py_in_cons w c t :
  w <in> String c t = if String.prefix w (String c t) then true else w <in> t.
Proof. reflexivity. Qed.

(** A word without a space that starts in [x] cannot run over the space
    that follows [x]. *)
Lemma prefix_before_space w :
  " " <in> w = false ->
  forall x y, String.prefix w (x ++ String " " y) = String.prefix w x.
Proof.
  induction w as [| a w IH]; intros Hw x y.
  - now rewrite !prefix_nil.
  - rewrite py_in_cons in Hw. cbn [String.prefix] in Hw.
    destruct (ascii_dec " " a) as [Ha | Ha].
    + rewrite prefix_nil in Hw. discriminate.
    + destruct x as [| b x]; cbn [append String.prefix].
      * destruct (ascii_dec a " "); [congruence | reflexivity].
      * destruct (ascii_dec a b); [now apply IH | reflexivity].
Qed.

Lemma py_in_across_space w :
  " " <in> w = false ->
  forall x y, w <in> (x ++ String " " y) = (w <in> x) || (w <in> y).
Proof.
  intros Hw x y. induction x as [| b x IH].
  - cbn [append]. rewrite py_in_cons.
    change (String " " y) with ("" ++ String " " y).
    rewrite (prefix_before_space w Hw "" y).
    destruct w as [| a w]; [now rewrite !py_in_nil |].
    cbn [String.prefix py_in]. reflexivity.
  - cbn [append]. rewrite !py_in_cons.
    change (String b (x ++ String " " y)) with (String b x ++ String " " y).
    rewrite (prefix_before_space w Hw (String b x) y).
    destruct (String.prefix w (String b x)); [reflexivity | exact IH].
Qed.

(** X4.  A keyword without a space occurs in the matching buffer exactly
    when it occurs in the lower-cased content or in the lower-cased
    subject: the space that joins them keeps such a keyword from matching
    across the two. *)
Theorem keyword_in_buffer :
  forall w content subject,
    " " <in> w = false ->
    w <in> combined content subject = (w <in> lower content) || (w <in> lower subject).
Proof.
  intros w content subject Hw. unfold combined.
  change (lower content ++ " " ++ lower subject)
    with (lower content ++ String " " (lower subject)).
  now apply py_in_across_space.
Qed.

Lemma keyword_in_buffer_witness :
  " " <in> "invoice" = false
  /\ "invoice" <in> combined "Your inVOICE is ready" "Billing" = true.
Proof.
  split; [reflexivity |].
  rewrite (keyword_in_buffer "invoice" "Your inVOICE is ready" "Billing" eq_refl).
  reflexivity.
Defined.

(** A phrase with a space can match across the two. *)
Example phrase_matches_across_content_and_subject :
  "revised document" <in> lower "see the revised" = false
  /\ "revised document" <in> lower "Document list" = false
  /\ "revised document" <in> combined "see the revised" "Document list" = true.
Proof. repeat split. Qed.

(** X3.  Matching is blind to the case of the content: the lower-cased
    content gives the same dictionary as the content itself. *)
Theorem extract_task_content_case :
  forall log now content src subject,
    fst (extract_task log now (lower content) src subject) =
    fst (extract_task log now content src subject).
Proof.
  intros. rewrite !ExtractorProps.fst_extract_task.
  unfold rules, combined. now rewrite lower_idem.
Qed.

Ltac chain_with tac :=
  repeat match goal with
         | |- context [if ?c then _ else _] =>
             destruct c eqn:?; [solve [tac] | ]
         end; tac.

(** X1.  The assignee is "Ravindu" or "You", and it is "Ravindu" exactly
    for the tasks "Send the revised document" and "Follow up with the
    client". *)
Theorem extract_task_assignee :
  forall log now content src subject,
    let r := fst (extract_task log now content src subject) in
    (assignee r = "Ravindu" \/ assignee r = "You")
    /\ (assignee r = "Ravindu" <->
        task r = Some "Send the revised document"
        \/ task r = Some "Follow up with the client").
Proof.
  intros log now content src subject. cbv zeta.
  rewrite ExtractorProps.fst_extract_task. unfold rules. cbv zeta.
  destruct (src =? "email")%string;
    [| destruct (src =? "calendar")%string; [| destruct (src =? "slack")%string]];
    chain_with ltac:(first
      [ cbn; split; [auto | split; [intros H; discriminate H
                                   | intros [H | H]; discriminate H]]
      | cbn; split; [auto | split; auto] ]).
Qed.

(** X2.  The task text is at most 72 characters long, however long the
    subject is. *)
Theorem extract_task_task_length :
  forall log now content src subject,
    match task (fst (extract_task log now content src subject)) with
    | Some t => (String.length t <= 72)%nat
    | None => True
    end.
Proof.
  intros log now content src subject.
  rewrite ExtractorProps.fst_extract_task. unfold rules. cbv zeta.
  pose proof (length_take 50 subject) as Hs.
  destruct (src =? "email")%string;
    [| destruct (src =? "calendar")%string; [| destruct (src =? "slack")%string]];
    chain_with ltac:(cbn; try exact I; lia).
Qed.

End ExtractorMore.

(** ** More about the two intent strategies *)

Module ClassifierMore.
Import PyStr Py TaskAgent AgentSpec.

Lemma prefix_app_l u v :
  forall t, String.prefix (u ++ v) t = true -> String.prefix u t = true.
Proof.
  induction u as [| a u IH]; intros t H; [destruct t; reflexivity |].
  destruct t as [| b t]; cbn [append String.prefix] in *; [discriminate |].
  destruct (ascii_dec a b); [now apply IH | discriminate].
Qed.

(** A text that contains a keyword contains every beginning of it. *)
Lemma py_in_app_l u v t : (u ++ v) <in> t = true -> u <in> t = true.
Proof.
  induction t as [| c t IH]; cbn [py_in]; intros H.
  - destruct (String.prefix (u ++ v) "") eqn:E; [| discriminate].
    now rewrite (prefix_app_l _ _ _ E).
  - destruct (String.prefix (u ++ v) (String c t)) eqn:E.
    + now rewrite (prefix_app_l _ _ _ E).
    + rewrite (IH H). now destruct (String.prefix u (String c t)).
Qed.

Lemma completion_group t :
  any_in ["done"; "completed"; "finished"; "complete"] t
  = any_in ["done"; "finished"; "complete"] t.
Proof.
  unfold any_in. cbn [existsb].
  pose proof (py_in_app_l "complete" "d" t) as H. cbn [append] in H.
  destruct ("done" <in> t), ("finished" <in> t), ("complete" <in> t),
    ("completed" <in> t); try reflexivity.
  discriminate (H eq_refl).
Qed.

(** X7.  The rule-based agent answers "complete" exactly when the
    lower-cased message contains "done", "finished" or "complete"; the
    keyword "completed" never decides. *)
Theorem get_response_complete :
  forall task_description user_message task_owner,
    action (TaskAgent.get_response task_description user_message task_owner) = "complete"
    <-> any_in ["done"; "finished"; "complete"] (lower user_message) = true.
Proof.
  intros td msg owner. rewrite <- completion_group.
  unfold TaskAgent.get_response. cbv zeta.
  destruct (any_in ["done"; "completed"; "finished"; "complete"] (lower msg)).
  - cbn. split; reflexivity.
  - repeat match goal with
           | |- context [if ?c then _ else _] => destruct c
           end; cbn; split; intros H; discriminate H.
Qed.

(** The same message, classified in spite of a negation. *)
Example not_done_yet_is_complete :
  action (TaskAgent.get_response "Send the report" "This is still incomplete, help!" "You")
  = "complete".
Proof. reflexivity. Qed.

(** X5.  The rule-based agent is blind to the case of what it reads: the
    lower-cased message gets the same reply, and the lower-cased description
    the same category. *)
Theorem rule_based_agent_case :
  forall task_description user_message task_owner,
    TaskAgent.get_response task_description (lower user_message) task_owner
    = TaskAgent.get_response task_description user_message task_owner
    /\ categorize_task (lower task_description) = categorize_task task_description.
Proof.
  intros td msg owner. unfold TaskAgent.get_response, categorize_task. cbv zeta.
  now rewrite !ExtractorMore.lower_idem.
Qed.

Lemma rule_based_tier td msg owner :
  tier (action (TaskAgent.get_response td msg owner)) tier_table
  = Some (confidence (TaskAgent.get_response td msg owner)).
Proof.
  unfold TaskAgent.get_response. cbv zeta.
  repeat match goal with
         | |- context [if ?c then _ else _] => destruct c
         end; reflexivity.
Qed.

(** X6.  With any pipeline, loaded or not, the enhanced agent returns one
    of the six actions of the table with the confidence that the table
    gives it: the intents "approve", "review" and "process" never come out
    as actions. *)
Theorem nlp_get_response_tier :
  forall nlp task_description user_message task_owner,
    let r := NLPAgent.get_response nlp task_description user_message task_owner in
    tier (action r) tier_table = Some (confidence r).
Proof.
  intros nlp td msg owner. cbv zeta. unfold NLPAgent.get_response.
  destruct nlp as [parse |]; [| apply rule_based_tier].
  cbv zeta.
  destruct (_ =? "complete")%string; [reflexivity |].
  destruct (existsb _ _); apply rule_based_tier.
Qed.

(** A root verb "approve" is recognised as an intent and then answered by
    the rule-based reply. *)
Example approve_intent_is_not_an_action :
  let nlp := Some (fun _ : string => [NLPAgent.mk_token "ROOT" "approve"]) in
  NLPAgent._extract_intent nlp "Looks fine to me" = "approve"
  /\ action (NLPAgent.get_response nlp "Sign the SOW" "Looks fine to me" "You")
     = "acknowledge".
Proof. split; reflexivity. Qed.

End ClassifierMore.

(** ** The actions on the store *)

Module ActionProps.
Import PyStr Clock Py Store TaskAgent PyMore Actions Shapes AgentSpec.

Lemma dict_get_set_eq k v d : dict_get k (dict_set k v d) = Some v.
Proof.
  induction d as [| [k' v'] d IH]; cbn.
  - now rewrite String.eqb_refl.
  - destruct (k' =? k)%string eqn:E; cbn; rewrite E; [reflexivity | exact IH].
Qed.

Lemma dict_get_set_ne k0 k v d :
  (k =? k0)%string = false -> dict_get k (dict_set k0 v d) = dict_get k d.
Proof.
  intros H. rewrite String.eqb_sym in H.
  induction d as [| [k' v'] d IH]; cbn.
  - now rewrite H.
  - destruct (k' =? k0)%string eqn:E; cbn.
    + apply String.eqb_eq in E. subst k'. now rewrite H.
    + destruct (k' =? k)%string; [reflexivity | exact IH].
Qed.

Lemma length_list_set {A} n (x : A) l : length (list_set n x l) = length l.
Proof.
  revert n. induction l as [| y l IH]; intros [| n]; cbn; try reflexivity.
  now rewrite IH.
Qed.

Lemma nth_error_list_set_eq {A} n (x y : A) l :
  nth_error l n = Some y -> nth_error (list_set n x l) n = Some x.
Proof.
  revert n. induction l as [| z l IH]; intros [| n]; cbn; try discriminate; auto.
Qed.

Lemma nth_error_list_set_ne {A} n m (x : A) l :
  n <> m -> nth_error (list_set n x l) m = nth_error l m.
Proof.
  revert n m. induction l as [| z l IH]; intros [| n] [| m] H; cbn; try reflexivity.
  - now elim H.
  - apply IH. lia.
Qed.

Lemma first_match_bounds q tasks :
  forall i j, first_match q tasks i = Ok (Some j) -> i <= j < i + len tasks.
Proof.
  unfold len.
  induction tasks as [| t rest IH]; intros i j H; cbn [first_match] in H.
  - discriminate.
  - destruct (description t) as [d | e]; cbn [bind] in H; [| discriminate].
    cbn [length]. destruct (q <in> d).
    + injection H as <-. lia.
    + apply IH in H. lia.
Qed.

(** A resolved reference is a position of the collection. *)
Lemma find_in_bounds st tasks ref idx :
  load_tasks st = Ok tasks ->
  _find_task_index st ref = Ok (Some idx) ->
  0 <= idx < len tasks.
Proof.
  intros Hl. unfold _find_task_index. rewrite Hl. cbn [bind].
  destruct ref as [i | s].
  - destruct ((0 <=? i) && (i <? len tasks)) eqn:E; intros H; [| discriminate].
    injection H as <-. apply andb_prop in E. destruct E as [E1 E2].
    apply Z.leb_le in E1. apply Z.ltb_lt in E2. lia.
  - unfold numeric_index.
    destruct (py_int s) as [i |].
    + destruct ((0 <=? i) && (i <? len tasks)) eqn:E.
      * intros H. injection H as <-. apply andb_prop in E. destruct E as [E1 E2].
        apply Z.leb_le in E1. apply Z.ltb_lt in E2. lia.
      * intros H. apply first_match_bounds in H. lia.
    + intros H. apply first_match_bounds in H. lia.
Qed.

Lemma locate_some st ref idx tasks t :
  locate st ref = Ok (Some (idx, tasks, t)) ->
  exists n, idx = Z.of_nat n
            /\ load_tasks st = Ok tasks
            /\ _find_task_index st ref = Ok (Some idx)
            /\ nth_error tasks n = Some t.
Proof.
  unfold locate.
  destruct (_find_task_index st ref) as [[i |] | e] eqn:F; cbn [bind];
    try discriminate.
  destruct (load_tasks st) as [ts | e] eqn:L; cbn [bind]; [| discriminate].
  unfold item. destruct (nth_error ts (Z.to_nat i)) as [x |] eqn:N; cbn [bind];
    [| discriminate].
  intros H. injection H as <- <- <-.
  pose proof (find_in_bounds _ _ _ _ L F) as Hb.
  exists (Z.to_nat i). rewrite Z2Nat.id by lia. auto.
Qed.

Lemma locate_none st tasks ref :
  load_tasks st = Ok tasks ->
  resolves_to_nothing tasks ref = true ->
  locate st ref = Ok None.
Proof.
  intros Hl Hr. unfold locate.
  now rewrite (StoreProps.find_nothing _ _ _ Hl Hr).
Qed.

(** X8.  [mark_complete], [set_reminder] and [add_comment] follow the
    resolution of the reference.  Where it returns [None] they return the
    dictionary "Task not found"; where it raises (a file that cannot be
    opened, a record whose description cannot be read) they raise the same
    exception; the file is as before in both cases.  In particular, on a
    collection that loads and whose descriptions can all be read, a
    reference that names no task gives "Task not found". *)
Theorem other_actions_not_found :
  forall st ref now note hours comment author,
    match _find_task_index st ref with
    | Ok None =>
        mark_complete st now ref note = (Return not_found, st)
        /\ set_reminder st ref hours = (Return not_found, st)
        /\ add_comment st now ref comment author = (Return not_found, st)
    | Raise e =>
        mark_complete st now ref note = (Throw (Builtin e), st)
        /\ set_reminder st ref hours = (Throw (Builtin e), st)
        /\ add_comment st now ref comment author = (Throw (Builtin e), st)
    | Ok (Some _) => True
    end
    /\ (forall tasks,
          load_tasks st = Ok tasks ->
          resolves_to_nothing tasks ref = true ->
          mark_complete st now ref note = (Return not_found, st)
          /\ set_reminder st ref hours = (Return not_found, st)
          /\ add_comment st now ref comment author = (Return not_found, st)).
Proof.
  intros st ref now note hours comment author. split.
  - unfold mark_complete, set_reminder, add_comment, locate.
    destruct (_find_task_index st ref) as [[idx |] | e]; cbn [bind]; auto.
  - intros tasks Hl Hr.
    unfold mark_complete, set_reminder, add_comment.
    rewrite (locate_none _ _ _ Hl Hr). auto.
Qed.

(** A text that occurs in no description of a store with two records; and
    the same text on a store whose first record has no text under "task". *)
Lemma other_actions_not_found_witness :
  (load_tasks (Stored demo_tasks) = Ok demo_tasks
   /\ resolves_to_nothing demo_tasks (RefStr "Invoice") = true)
  /\ (mark_complete (Stored demo_tasks) Conditions.demo_now (RefStr "Invoice") (Some "done")
      = (Return not_found, Stored demo_tasks)
      /\ set_reminder (Stored demo_tasks) (RefStr "Invoice") 2
         = (Return not_found, Stored demo_tasks)
      /\ add_comment (Stored demo_tasks) Conditions.demo_now (RefStr "Invoice") "hello" "me"
         = (Return not_found, Stored demo_tasks))
  /\ add_comment (Stored [VDict [("task", VNone)]]) Conditions.demo_now
                 (RefStr "Invoice") "hello" "me"
     = (Throw (Builtin AttributeError), Stored [VDict [("task", VNone)]]).
Proof.
  split; [split; reflexivity |]. split.
  - exact (proj2 (other_actions_not_found (Stored demo_tasks) (RefStr "Invoice")
                    Conditions.demo_now (Some "done") 2 "hello" "me")
                 demo_tasks eq_refl eq_refl).
  - exact (proj2 (proj2 (proj1 (other_actions_not_found
                                  (Stored [VDict [("task", VNone)]]) (RefStr "Invoice")
                                  Conditions.demo_now None 1 "hello" "me")))).
Defined.

Ltac not_mentioned H :=
  cbn [mentions existsb] in H;
  repeat (apply orb_false_elim in H; destruct H as [? H]).

Lemma setdefault_append_frame key e d d' k :
  setdefault_append key e d = Some d' ->
  (k =? key)%string = false ->
  dict_get k d' = dict_get k d.
Proof.
  unfold setdefault_append. intros H Hk.
  destruct (dict_get key d) as [[| | | | l |] |]; try discriminate;
    injection H as <-; now apply dict_get_set_ne.
Qed.

Lemma setdefault_append_entries key e d d' :
  setdefault_append key e d = Some d' ->
  entries key d' = (entries key d ++ [e])%list.
Proof.
  unfold setdefault_append, entries. intros H.
  destruct (dict_get key d) as [[| | | | l |] |]; try discriminate;
    injection H as <-; now rewrite dict_get_set_eq.
Qed.

(** The three ways in which a write ends. *)
Lemma save_cases st tasks :
  save_tasks st tasks = (Raise OSError, st)
  \/ save_tasks st tasks = (Raise UnicodeEncodeError, Garbled)
  \/ save_tasks st tasks = (Ok tt, Stored tasks).
Proof.
  unfold save_tasks. destruct st; auto; destruct (forallb encodable tasks); auto.
Qed.

Lemma commit_cases st tasks out :
  commit st tasks out = (Throw (Builtin OSError), st)
  \/ commit st tasks out = (Throw (Builtin UnicodeEncodeError), Garbled)
  \/ commit st tasks out = (Return out, Stored tasks).
Proof.
  unfold commit. destruct (save_cases st tasks) as [E | [E | E]]; rewrite E; auto.
Qed.

(** A committed replacement of the [n]-th record, seen as an update. *)
Lemma commit_updated keys st ref tasks n d d' msg :
  load_tasks st = Ok tasks ->
  _find_task_index st ref = Ok (Some (Z.of_nat n)) ->
  nth_error tasks n = Some (VDict d) ->
  (forall k, mentions keys k = false -> dict_get k d' = dict_get k d) ->
  updated keys st ref
          (fst (commit st (list_set n (VDict d') tasks)
                       (mk_outcome true msg (Some (Z.of_nat n)))))
          (snd (commit st (list_set n (VDict d') tasks)
                       (mk_outcome true msg (Some (Z.of_nat n))))).
Proof.
  intros Hl Hf Hn Hframe.
  destruct (commit_cases st (list_set n (VDict d') tasks)
              (mk_outcome true msg (Some (Z.of_nat n)))) as [E | [E | E]];
    rewrite E; cbn [fst snd].
  - left. split; reflexivity.
  - right. left. split; reflexivity.
  - right. right. exists tasks, n, d, d', msg. repeat split; auto.
Qed.

Lemma mark_complete_updated st now ref note :
  updated ["status"; "completed_date"; "agent_notes"] st ref
          (fst (mark_complete st now ref note)) (snd (mark_complete st now ref note)).
Proof.
  unfold mark_complete.
  destruct (locate st ref) as [[[[idx tasks] t] |] | e] eqn:L;
    try (left; split; reflexivity).
  apply locate_some in L. destruct L as (n & -> & Hl & Hf & Hn).
  rewrite Nat2Z.id.
  destruct t as [| | | | | d]; try (left; split; reflexivity).
  assert (Hframe : forall k,
             mentions ["status"; "completed_date"; "agent_notes"] k = false ->
             dict_get k (dict_set "completed_date" (VStr (strftime_full now))
                           (dict_set "status" (VStr "completed") d)) = dict_get k d).
  { intros k Hk. not_mentioned Hk. now rewrite !dict_get_set_ne. }
  destruct note as [text |].
  - destruct (truthy (Some text)).
    + destruct (setdefault_append _ _ _) as [d3 |] eqn:S; [| left; split; reflexivity].
      apply (commit_updated _ st ref tasks n d d3 _ Hl Hf Hn).
      intros k Hk. rewrite (setdefault_append_frame _ _ _ _ k S); [now apply Hframe |].
      now not_mentioned Hk.
    + now apply (commit_updated _ st ref tasks n d _ _ Hl Hf Hn).
  - now apply (commit_updated _ st ref tasks n d _ _ Hl Hf Hn).
Qed.

Lemma set_reminder_updated st ref hours :
  updated ["reminder_hours"; "reminder"; "reminder_triggered"] st ref
          (fst (set_reminder st ref hours)) (snd (set_reminder st ref hours)).
Proof.
  unfold set_reminder.
  destruct (locate st ref) as [[[[idx tasks] t] |] | e] eqn:L;
    try (left; split; reflexivity).
  apply locate_some in L. destruct L as (n & -> & Hl & Hf & Hn).
  rewrite Nat2Z.id.
  destruct t as [| | | | | d]; try (left; split; reflexivity).
  apply (commit_updated _ st ref tasks n d _ _ Hl Hf Hn).
  intros k Hk. not_mentioned Hk. now rewrite !dict_get_set_ne.
Qed.

Lemma add_comment_updated st now ref comment author :
  updated ["comments"] st ref
          (fst (add_comment st now ref comment author))
          (snd (add_comment st now ref comment author)).
Proof.
  unfold add_comment.
  destruct (locate st ref) as [[[[idx tasks] t] |] | e] eqn:L;
    try (left; split; reflexivity).
  apply locate_some in L. destruct L as (n & -> & Hl & Hf & Hn).
  rewrite Nat2Z.id.
  destruct t as [| | | | | d]; try (left; split; reflexivity).
  destruct (setdefault_append _ _ _) as [d1 |] eqn:S; [| left; split; reflexivity].
  apply (commit_updated _ st ref tasks n d d1 _ Hl Hf Hn).
  intros k Hk. not_mentioned Hk. now apply (setdefault_append_frame _ _ _ _ k S).
Qed.

Lemma reassign_updated st ref new_owner :
  updated ["owner"] st ref
          (fst (reassign' st ref new_owner)) (snd (reassign' st ref new_owner)).
Proof.
  unfold reassign', reassign.
  destruct (_find_task_index st ref) as [[idx |] | e] eqn:F;
    try (left; split; reflexivity).
  destruct (load_tasks st) as [tasks | e] eqn:Hl; cbn [bind];
    [| left; split; reflexivity].
  pose proof (find_in_bounds _ _ _ _ Hl F) as Hb.
  unfold item. destruct (nth_error tasks (Z.to_nat idx)) as [t |] eqn:Hn; cbn [bind];
    [| left; split; reflexivity].
  destruct t as [| | | | | d]; try (left; split; reflexivity).
  destruct (save_cases st (list_set (Z.to_nat idx)
                             (VDict (dict_set "owner" (VStr new_owner) d)) tasks))
    as [E | [E | E]]; rewrite E; cbn [fst snd lift].
  - left. split; reflexivity.
  - right. left. split; reflexivity.
  - right. right. eexists tasks, (Z.to_nat idx), d, _, _.
    rewrite Z2Nat.id by lia. repeat split; auto.
    intros k Hk. not_mentioned Hk. now rewrite dict_get_set_ne.
Qed.

(** What [process_task_action] does to the file, for every action type. *)
Lemma process_updated st now ref action_type kwargs :
  updated (touched action_type) st ref
          (fst (process_task_action st now ref action_type kwargs))
          (snd (process_task_action st now ref action_type kwargs)).
Proof.
  unfold process_task_action, touched.
  destruct (action_type =? "complete")%string; [apply mark_complete_updated |].
  destruct (action_type =? "set_reminder")%string; [apply set_reminder_updated |].
  destruct (action_type =? "reassign")%string; [apply reassign_updated |].
  destruct (action_type =? "comment")%string; [apply add_comment_updated |].
  left. split; reflexivity.
Qed.



Lemma first_match_list_set q tasks :
  forall n d d' i,
    nth_error tasks n = Some (VDict d) ->
    dict_get "task" d' = dict_get "task" d ->
    first_match q (list_set n (VDict d') tasks) i = first_match q tasks i.
Proof.
  induction tasks as [| t rest IH]; intros [| n] d d' i Hn Hd; cbn in Hn;
    try discriminate.
  - injection Hn as ->. cbn [list_set first_match description]. now rewrite Hd.
  - cbn [list_set first_match]. destruct (description t); cbn [bind]; [| reflexivity].
    destruct (q <in> a); [reflexivity | now apply IH with d].
Qed.

Lemma find_after_update st tasks n d d' ref :
  load_tasks st = Ok tasks ->
  nth_error tasks n = Some (VDict d) ->
  dict_get "task" d' = dict_get "task" d ->
  _find_task_index (Stored (list_set n (VDict d') tasks)) ref = _find_task_index st ref.
Proof.
  intros Hl Hn Hd. unfold _find_task_index. rewrite Hl. cbn [load_tasks bind].
  unfold numeric_index, len. rewrite length_list_set.
  destruct ref as [i | s]; [reflexivity |].
  now rewrite (first_match_list_set _ _ _ _ _ _ Hn Hd).
Qed.

Lemma task_is_not_touched action_type : mentions (touched action_type) "task" = false.
Proof.
  unfold touched.
  repeat match goal with
         | |- context [if ?c then _ else _] => destruct c
         end; reflexivity.
Qed.

(** X10.  Unless the write itself failed, no action changes what a
    reference resolves to: after [process_task_action], with success or
    without, every reference resolves as it did before. *)
Theorem actions_keep_references :
  forall st now ref action_type kwargs ref',
    write_failed (fst (process_task_action st now ref action_type kwargs)) = false ->
    _find_task_index (snd (process_task_action st now ref action_type kwargs)) ref'
    = _find_task_index st ref'.
Proof.
  intros st now ref a kw ref' Hw.
  destruct (process_updated st now ref a kw)
    as [[_ Hs] | [[Hr _] | (tasks & n & d & d' & msg & Hl & _ & Hn & _ & Hst & Hframe)]].
  - now rewrite Hs.
  - rewrite Hr in Hw. discriminate Hw.
  - rewrite Hst. apply (find_after_update st tasks n d d' ref' Hl Hn).
    apply Hframe, task_is_not_touched.
Qed.

Lemma actions_keep_references_witness :
  let kw := mk_kwargs (Some "Call made") None None None None in
  write_failed (fst (process_task_action (Stored demo_tasks) Conditions.demo_now
                       (RefStr "client") "complete" kw)) = false
  /\ _find_task_index (snd (process_task_action (Stored demo_tasks) Conditions.demo_now
                              (RefStr "client") "complete" kw)) (RefStr "client")
     = Ok (Some 0).
Proof.
  cbv zeta. split; [reflexivity |].
  rewrite (actions_keep_references (Stored demo_tasks) Conditions.demo_now
             (RefStr "client") "complete"
             (mk_kwargs (Some "Call made") None None None None) (RefStr "client") eq_refl).
  reflexivity.
Defined.

(** X11.  Unless the write itself failed, an action changes at most the
    record that its reference resolves to, and in that record only the keys
    of its own: the collection keeps its length, every other record and
    every other key is as before. *)
Theorem action_frame :
  forall st now ref action_type kwargs tasks tasks',
    write_failed (fst (process_task_action st now ref action_type kwargs)) = false ->
    load_tasks st = Ok tasks ->
    load_tasks (snd (process_task_action st now ref action_type kwargs)) = Ok tasks' ->
    length tasks' = length tasks
    /\ (forall i key,
          mentions (touched action_type) key = false ->
          cell tasks' i key = cell tasks i key)
    /\ (forall i,
          _find_task_index st ref <> Ok (Some (Z.of_nat i)) ->
          nth_error tasks' i = nth_error tasks i).
Proof.
  intros st now ref a kw tasks tasks' Hw Hl Hl'.
  destruct (process_updated st now ref a kw)
    as [[_ Hs] | [[Hr _] |
                  (tasks0 & n & d & d' & msg & Hl0 & Hf & Hn & _ & Hst & Hframe)]].
  - rewrite Hs, Hl in Hl'. injection Hl' as <-. auto.
  - rewrite Hr in Hw. discriminate Hw.
  - rewrite Hl in Hl0. injection Hl0 as <-.
    rewrite Hst in Hl'. cbn in Hl'. injection Hl' as <-.
    split; [apply length_list_set |]. split.
    + intros i key Hk. unfold cell.
      destruct (Nat.eq_dec n i) as [<- | Hne].
      * rewrite (nth_error_list_set_eq _ _ _ _ Hn), Hn. now apply Hframe.
      * now rewrite nth_error_list_set_ne.
    + intros i Hi. apply nth_error_list_set_ne. intros ->. now elim Hi.
Qed.

Lemma action_frame_witness :
  let st := Stored demo_tasks in
  let kw := mk_kwargs None (Some 4) None None None in
  (write_failed (fst (process_task_action st Conditions.demo_now (RefStr "books")
                        "set_reminder" kw)) = false
   /\ load_tasks st = Ok demo_tasks
   /\ exists tasks',
        load_tasks (snd (process_task_action st Conditions.demo_now (RefStr "books")
                           "set_reminder" kw)) = Ok tasks'
        /\ cell tasks' 1 "reminder_hours" = Some (VInt 4))
  /\ cell (list_set 1 (VDict [("task", VStr "Buy 2 books"); ("owner", VStr "Ravindu");
                              ("reminder_hours", VInt 4);
                              ("reminder", VStr "4 hour(s) before");
                              ("reminder_triggered", VBool false)]) demo_tasks)
          1 "owner" = cell demo_tasks 1 "owner".
Proof.
  cbv zeta. split.
  - split; [reflexivity |]. split; [reflexivity |]. eexists. split; reflexivity.
  - refine (proj1 (proj2 (action_frame (Stored demo_tasks) Conditions.demo_now
                            (RefStr "books") "set_reminder"
                            (mk_kwargs None (Some 4) None None None)
                            demo_tasks _ eq_refl eq_refl eq_refl)) 1%nat "owner" eq_refl).
Defined.

Lemma dict_set_set k v1 v2 d : dict_set k v2 (dict_set k v1 d) = dict_set k v2 d.
Proof.
  induction d as [| [k' v'] d IH]; cbn.
  - now rewrite String.eqb_refl.
  - destruct (k' =? k)%string eqn:E; cbn; rewrite E; [reflexivity | now rewrite IH].
Qed.

Lemma list_set_set {A} n (x y : A) l : list_set n y (list_set n x l) = list_set n y l.
Proof.
  revert n. induction l as [| z l IH]; intros [| n]; cbn; try reflexivity.
  now rewrite IH.
Qed.

(** Replacing a value that could be written by another that can be. *)
Lemma encodable_dict_set k v1 v2 d :
  encodable (VDict (dict_set k v1 d)) = true ->
  encodable v2 = true ->
  encodable (VDict (dict_set k v2 d)) = true.
Proof.
  cbn [encodable]. intros H H2.
  induction d as [| [k' v'] d IH]; cbn [dict_set forallb] in *.
  - apply andb_prop in H. destruct H as [H _]. apply andb_prop in H.
    destruct H as [Hk _]. now rewrite Hk, H2.
  - destruct (k' =? k)%string; cbn [forallb] in *.
    + apply andb_prop in H. destruct H as [H Hd]. apply andb_prop in H.
      destruct H as [Hk _]. now rewrite Hk, H2, Hd.
    + apply andb_prop in H. destruct H as [H Hd]. rewrite H. cbn [andb]. now apply IH.
Qed.

Lemma encodable_list_set n (x1 x2 : value) l :
  forallb encodable (list_set n x1 l) = true ->
  (encodable x1 = true -> encodable x2 = true) ->
  forallb encodable (list_set n x2 l) = true.
Proof.
  revert n. induction l as [| y l IH]; intros [| n] H Hx; cbn [list_set forallb] in *;
    auto; apply andb_prop in H; destruct H as [H1 H2].
  - now rewrite (Hx H1), H2.
  - rewrite H1. cbn [andb]. now apply IH.
Qed.

Lemma forallb_nth_error {A} (f : A -> bool) l n x :
  forallb f l = true -> nth_error l n = Some x -> f x = true.
Proof.
  revert n. induction l as [| y l IH]; intros [| n] H Hn; cbn in *; try discriminate;
    apply andb_prop in H; destruct H as [H1 H2].
  - now injection Hn as <-.
  - now apply IH with n.
Qed.

(** X12.  After a successful [reassign] to [o1], a [reassign] of the same
    reference to a name [o2] that can be encoded succeeds, reports
    "Reassigned from o1 to o2" for the same index, and leaves the file that
    the second call alone would have left. *)
Theorem reassign_twice :
  forall st ref o1 o2 out1 st1,
    reassign st ref o1 = (Ok out1, st1) ->
    success out1 = true ->
    has_surrogate o2 = false ->
    fst (reassign st1 ref o2)
    = Ok (mk_outcome true ("Reassigned from " ++ o1 ++ " to " ++ o2) (index out1))
    /\ snd (reassign st1 ref o2) = snd (reassign st ref o2).
Proof.
  intros st ref o1 o2 out1 st1 H Hs Ho2.
  unfold reassign in H |- *.
  destruct (_find_task_index st ref) as [[idx |] | e] eqn:F.
  2: { injection H as <- <-. discriminate Hs. }
  2: discriminate H.
  destruct (load_tasks st) as [tasks | e] eqn:Hl; cbn [bind] in *; [| discriminate H].
  pose proof (find_in_bounds _ _ _ _ Hl F) as Hb.
  unfold item in *.
  destruct (nth_error tasks (Z.to_nat idx)) as [t |] eqn:Hn; cbn [bind] in *;
    [| discriminate H].
  destruct t as [| | | | | d]; try discriminate H.
  set (n := Z.to_nat idx) in *.
  set (t1 := VDict (dict_set "owner" (VStr o1) d)) in *.
  assert (Hst : (exists tasks0, st = Stored tasks0) \/ st = Missing \/ st = Garbled).
  { unfold save_tasks in H. destruct st; try discriminate H; eauto. }
  assert (He1 : forallb encodable (list_set n t1 tasks) = true).
  { unfold save_tasks in H.
    destruct Hst as [(tasks0 & ->) | [-> | ->]];
      destruct (forallb encodable (list_set n t1 tasks)); auto; discriminate H. }
  assert (Hsave1 : save_tasks st (list_set n t1 tasks) = (Ok tt, Stored (list_set n t1 tasks))).
  { unfold save_tasks. rewrite He1. destruct Hst as [(tasks0 & ->) | [-> | ->]]; reflexivity. }
  rewrite Hsave1 in H. injection H as <- <-. cbn [index].
  assert (He2 : forallb encodable
                  (list_set n (VDict (dict_set "owner" (VStr o2) d)) tasks) = true).
  { apply (encodable_list_set n t1 _ tasks He1). intros Ht1.
    apply (encodable_dict_set "owner" (VStr o1) (VStr o2) d Ht1).
    cbn. now rewrite Ho2. }
  subst t1.
  rewrite (find_after_update st tasks n d _ ref Hl Hn)
    by (now apply dict_get_set_ne).
  rewrite F. cbn [load_tasks bind].
  rewrite (nth_error_list_set_eq _ _ _ _ Hn). cbn [bind].
  rewrite dict_get_set_eq, dict_set_set, list_set_set. cbn [str save_tasks].
  rewrite He2.
  assert (Hsave2 : save_tasks st (list_set n (VDict (dict_set "owner" (VStr o2) d)) tasks)
                   = (Ok tt, Stored (list_set n (VDict (dict_set "owner" (VStr o2) d)) tasks))).
  { unfold save_tasks. rewrite He2. destruct Hst as [(tasks0 & ->) | [-> | ->]]; reflexivity. }
  rewrite Hsave2. cbn [fst snd]. auto.
Qed.

Lemma reassign_twice_witness :
  (reassign (Stored demo_tasks) (RefInt 0) "Ann"
   = (Ok (mk_outcome true "Reassigned from You to Ann" (Some 0)),
      Stored (list_set 0 (VDict [("task", VStr "Call 1 client"); ("owner", VStr "Ann")])
                       demo_tasks))
   /\ has_surrogate "Bob" = false)
  /\ fst (reassign (Stored (list_set 0 (VDict [("task", VStr "Call 1 client");
                                                ("owner", VStr "Ann")]) demo_tasks))
                   (RefInt 0) "Bob")
     = Ok (mk_outcome true "Reassigned from Ann to Bob" (Some 0)).
Proof.
  split; [split; reflexivity |].
  exact (proj1 (reassign_twice (Stored demo_tasks) (RefInt 0) "Ann" "Bob" _ _
                  eq_refl eq_refl eq_refl)).
Defined.

(** A name that cannot be encoded stops the second write. *)
Example reassign_to_unencodable_owner :
  let lone := String (ascii_of_N 237) (String (ascii_of_N 160) (String (ascii_of_N 189) "")) in
  has_surrogate lone = true
  /\ reassign (Stored demo_tasks) (RefInt 0) lone = (Raise UnicodeEncodeError, Garbled).
Proof. split; reflexivity. Qed.

(** X13.  A successful [add_comment] puts its entry, stamped with the
    instant of the call, after the comments that the record already had. *)
Theorem add_comment_appends :
  forall st now ref comment author tasks,
    load_tasks st = Ok tasks ->
    succeeded (fst (add_comment st now ref comment author)) = true ->
    exists n tasks',
      _find_task_index st ref = Ok (Some (Z.of_nat n))
      /\ load_tasks (snd (add_comment st now ref comment author)) = Ok tasks'
      /\ entries_at "comments" tasks' n
         = (entries_at "comments" tasks n
            ++ [VDict [("when", VStr (strftime_full now)); ("author", VStr author);
                       ("comment", VStr comment)]])%list.
Proof.
  intros st now ref comment author tasks Hl.
  unfold add_comment.
  destruct (locate st ref) as [[[[idx tasks0] t] |] | e] eqn:L; try discriminate.
  apply locate_some in L. destruct L as (n & -> & Hl0 & Hf & Hn).
  rewrite Hl in Hl0. injection Hl0 as <-. rewrite Nat2Z.id.
  destruct t as [| | | | | d]; try discriminate.
  destruct (setdefault_append _ _ _) as [d1 |] eqn:S; [| discriminate].
  destruct (commit_cases st (list_set n (VDict d1) tasks)
              (mk_outcome true "Comment added" (Some (Z.of_nat n)))) as [E | [E | E]];
    rewrite E; cbn [fst snd succeeded]; try discriminate.
  intros _. exists n. eexists. cbn [load_tasks].
  split; [exact Hf | split; [reflexivity |]].
  unfold entries_at. rewrite (nth_error_list_set_eq _ _ _ _ Hn), Hn.
  now apply setdefault_append_entries.
Qed.

Lemma add_comment_appends_witness :
  let st := Stored [VDict [("task", VStr "Call Ann");
                           ("comments", VList [VStr "first"])]] in
  (load_tasks st = Ok [VDict [("task", VStr "Call Ann");
                              ("comments", VList [VStr "first"])]]
   /\ succeeded (fst (add_comment st Conditions.demo_now (RefStr "ann") "second" "me"))
      = true)
  /\ exists n tasks',
       _find_task_index st (RefStr "ann") = Ok (Some (Z.of_nat n))
       /\ load_tasks (snd (add_comment st Conditions.demo_now (RefStr "ann") "second" "me"))
          = Ok tasks'
       /\ entries_at "comments" tasks' n
          = (entries_at "comments" [VDict [("task", VStr "Call Ann");
                                           ("comments", VList [VStr "first"])]] n
             ++ [VDict [("when", VStr (strftime_full Conditions.demo_now));
                        ("author", VStr "me"); ("comment", VStr "second")]])%list.
Proof.
  cbv zeta. split; [split; reflexivity |].
  exact (add_comment_appends
           (Stored [VDict [("task", VStr "Call Ann"); ("comments", VList [VStr "first"])]])
           Conditions.demo_now (RefStr "ann") "second" "me"
           [VDict [("task", VStr "Call Ann"); ("comments", VList [VStr "first"])]]
           eq_refl eq_refl).
Defined.




(** A request for help is answered and nothing is executed. *)
Example get_ai_response_guide :
  get_ai_response None (Stored demo_tasks) Conditions.demo_now
    "Buy 2 books" "How do I start?" "You" true (Some (RefInt 1))
  = (Return (mk_response
               (mk_reply "I can guide you through: Buy 2 books. Tell me which step you need help with."
                         "guide" "medium")
               (Some (mk_outcome false "No execution rule for action" None))),
     Stored demo_tasks).
Proof. reflexivity. Qed.

(** The new owner of an executed reassignment is the last word of the
    message. *)
Example get_ai_response_reassign :
  snd (get_ai_response None (Stored demo_tasks) Conditions.demo_now
         "Buy 2 books" "Assign to   Bob " "You" true (Some (RefStr "books")))
  = Stored [VDict [("task", VStr "Call 1 client"); ("owner", VStr "You")];
            VDict [("task", VStr "Buy 2 books"); ("owner", VStr "Bob")]].
Proof. reflexivity. Qed.

End ActionProps.

(** ** The file that [main.py] writes *)

Module MainProps.
Import PyStr Clock Py Store TaskExtractor Main Shapes Conditions.

(** One turn of the loop: either a task-assigning branch is taken, the
    result has a non-empty task and one of the three tiers, and the list
    grows by the result; or no task comes out and the list stays. *)
Lemma extract_email log now e :
  let '(r, log1) := extract_task log now (e_body e) "email" (e_subject e) in
  (rule_matched (e_body e) "email" (e_subject e) = true
   /\ (exists t, task r = Some t /\ t <> "" /\ TaskExtractor.truthy (task r) = true)
   /\ In (confidence r) ["high"; "medium"; "low"]
   /\ log1 = (log ++ [mk_confirmed r now])%list)
  \/ (rule_matched (e_body e) "email" (e_subject e) = false
      /\ task r = None /\ log1 = log).
Proof.
  unfold extract_task.
  pose proof (ExtractorProps.rules_invariant now (e_body e) "email" (e_subject e)) as H.
  destruct (rules now (e_body e) "email" (e_subject e)) as [[[t a] d] c].
  destruct H as [Hm Hs]. cbn [task confidence].
  destruct t as [s |]; cbn [present] in Hm.
  - left. destruct Hs as (Hne & _ & Hc).
    assert (Ht : TaskExtractor.truthy (Some s) = true) by (destruct s; [now elim Hne | reflexivity]).
    rewrite Ht. repeat split; auto. exists s. auto.
  - right. cbn. auto.
Qed.

Lemma task_obj_fresh t r e :
  t <> "" -> In (confidence r) ["high"; "medium"; "low"] ->
  fresh_task (task_obj t r e) = true.
Proof.
  intros Ht Hc. unfold task_obj, fresh_task. cbn [dict_get String.eqb Ascii.eqb Bool.eqb].
  assert (Hn : negb (t =? "")%string = true).
  { destruct (t =? "")%string eqn:E; [apply String.eqb_eq in E; now elim Ht | reflexivity]. }
  rewrite Hn.
  destruct Hc as [<- | [<- | [<- | []]]]; reflexivity.
Qed.

Lemma loop_spec clock emails :
  forall k log,
    let '(tasks, log') := loop clock k emails log in
    forallb fresh_task tasks = true
    /\ length tasks = length (actionable emails)
    /\ exists added,
         log' = (log ++ added)%list
         /\ map task_of tasks = map (fun c => option_map VStr (task (fields c))) added.
Proof.
  induction emails as [| e rest IH]; intros k log.
  - cbn. repeat split. exists []. now rewrite app_nil_r.
  - cbn [loop actionable filter].
    pose proof (extract_email log (clock k) e) as He.
    destruct (extract_task log (clock k) (e_body e) "email" (e_subject e)) as [r log1].
    specialize (IH (S k) log1).
    destruct (loop clock (S k) rest log1) as [tasks log2].
    destruct IH as (Hf & Hlen & added & Hlog & Hmap).
    destruct He as [(Hm & (t & Ht & Hne & Htr) & Hc & ->) | (Hm & Ht & ->)];
      rewrite Hm, Ht.
    + rewrite Ht in Htr. rewrite Htr. cbn [forallb length].
      rewrite (task_obj_fresh t r e Hne Hc), Hf. fold (actionable rest).
      repeat split; [now rewrite Hlen |].
      exists (mk_confirmed r (clock k) :: added). split.
      * rewrite Hlog, <- app_assoc. reflexivity.
      * cbn [map fields]. rewrite Ht, Hmap. reflexivity.
    + fold (actionable rest). repeat split; auto. exists added. auto.
Qed.

Lemma first_match_total q tasks :
  forallb fresh_task tasks = true ->
  forall i, exists r, first_match q tasks i = Ok r.
Proof.
  induction tasks as [| t rest IH]; intros H i; [now exists None |].
  cbn [forallb] in H. apply andb_prop in H. destruct H as [Ht Hrest].
  cbn [first_match].
  destruct t as [| | | | | d]; try discriminate Ht.
  unfold fresh_task in Ht. cbn [description].
  destruct (dict_get "task" d) as [[| | | s | |] |]; try discriminate Ht.
  cbn [bind]. destruct (q <in> lower s); [now eexists | now apply IH].
Qed.

(** X16.  On the file that [main.py] writes, resolving a reference never
    raises: every record has a text under "task". *)
Theorem main_store_resolves :
  forall clock emails ref,
    exists r, _find_task_index (fst (main clock emails)) ref = Ok r.
Proof.
  intros clock emails ref. unfold main.
  pose proof (loop_spec clock emails 0%nat []) as H.
  destruct (loop clock 0 emails []) as [tasks log]. destruct H as (Hf & _).
  cbn [fst]. unfold _find_task_index. cbn [load_tasks bind].
  destruct ref as [i | s].
  - destruct ((0 <=? i) && (i <? len tasks)); now eexists.
  - destruct (numeric_index s tasks); [now eexists |].
    now apply first_match_total.
Qed.

(** X17.  [main.py] writes one record for each e-mail that a
    task-assigning branch takes, in order and never more than there are
    e-mails; each record has a non-empty task text, the status "pending",
    and a priority that equals its confidence, one of "high", "medium",
    "low". *)
Theorem main_tasks_fresh :
  forall clock emails,
    exists tasks,
      fst (main clock emails) = Stored tasks
      /\ forallb fresh_task tasks = true
      /\ length tasks = length (actionable emails)
      /\ (length tasks <= length emails)%nat.
Proof.
  intros clock emails. unfold main.
  pose proof (loop_spec clock emails 0%nat []) as H.
  destruct (loop clock 0 emails []) as [tasks log].
  destruct H as (Hf & Hlen & _).
  exists tasks. repeat split; auto.
  rewrite Hlen. unfold actionable. apply filter_length_le.
Qed.

(** X18.  The list [confirmed_tasks] that a run of [main.py] leaves holds
    the same task texts, in the same order, as the file it writes. *)
Theorem main_log_agrees :
  forall clock emails,
    exists tasks,
      fst (main clock emails) = Stored tasks
      /\ map task_of tasks
         = map (fun c => option_map VStr (task (fields c))) (snd (main clock emails)).
Proof.
  intros clock emails. unfold main.
  pose proof (loop_spec clock emails 0%nat []) as H.
  destruct (loop clock 0 emails []) as [tasks log].
  destruct H as (_ & _ & added & -> & Hmap).
  exists tasks. split; [reflexivity | exact Hmap].
Qed.

Example main_on_three_emails :
  let emails := [mk_email "Document Update" "Please send the revised document by Friday"
                          (Some "ann@example.com");
                 mk_email "Lunch" "See you at noon" None;
                 mk_email "Q3" "Could you look at the numbers?" None] in
  match fst (main (fun _ => demo_now) emails) with
  | Stored tasks =>
      map task_of tasks
      = [Some (VStr "Send the revised document"); Some (VStr "Review and respond: Q3")]
  | _ => False
  end.
Proof. reflexivity. Qed.

End MainProps.

(** ** What the dashboard shows *)

Module DashboardProps.
Import PyStr Clock Py Store TaskAgent PyMore Actions Shapes Dashboard.

Section StableSort.
Context {A : Type}.
Implicit Types (x : Z * A) (l : list (Z * A)).

Lemma insert_perm x l : Permutation (insert x l) (x :: l).
Proof.
  induction l as [| y l IH]; cbn; [reflexivity |].
  destruct (fst x <=? fst y); [reflexivity |].
  rewrite IH. apply perm_swap.
Qed.

Lemma sort_perm l : Permutation (sort l) l.
Proof.
  induction l as [| x l IH]; cbn; [reflexivity |].
  rewrite insert_perm. now constructor.
Qed.

Lemma insert_sorted x l : Sorted by_key l -> Sorted by_key (insert x l).
Proof.
  induction l as [| y l IH]; intros H; cbn.
  - repeat constructor.
  - destruct (fst x <=? fst y) eqn:E.
    + constructor; [exact H |]. constructor. now apply Z.leb_le.
    + apply Z.leb_gt in E. inversion H as [| ? ? Hs Hh]; subst.
      constructor; [now apply IH |].
      destruct l as [| z l]; cbn.
      * constructor. unfold by_key. lia.
      * destruct (fst x <=? fst z).
        -- constructor. unfold by_key. lia.
        -- constructor. now inversion Hh.
Qed.

Lemma sort_sorted l : Sorted by_key (sort l).
Proof.
  induction l as [| x l IH]; cbn; [constructor | now apply insert_sorted].
Qed.

(** Among the entries of one key, the order is the one before the sort. *)
Lemma insert_filter k x l :
  filter (fun y => fst y =? k) (insert x l)
  = filter (fun y => fst y =? k) (x :: l).
Proof.
  induction l as [| y l IH]; [reflexivity |].
  cbn [insert]. destruct (fst x <=? fst y) eqn:E; [reflexivity |].
  cbn [filter] in *. rewrite IH.
  destruct (fst y =? k) eqn:Ey, (fst x =? k) eqn:Ex; try reflexivity.
  apply Z.eqb_eq in Ey, Ex. apply Z.leb_gt in E. lia.
Qed.

Lemma sort_filter k l :
  filter (fun y => fst y =? k) (sort l) = filter (fun y => fst y =? k) l.
Proof.
  induction l as [| x l IH]; [reflexivity |].
  cbn [sort fold_right]. fold (sort l). rewrite insert_filter.
  cbn [filter]. now rewrite IH.
Qed.

End StableSort.

Lemma keyed_spec l kl :
  keyed l = Return kl -> kl = map (fun x => (rank (snd x), x)) l.
Proof.
  revert kl. induction l as [| x l IH]; intros kl H; cbn [keyed] in H.
  - now injection H as <-.
  - cbn [map]. unfold rank at 1.
    destruct (priority_key (snd x)) as [k | e]; [| discriminate].
    destruct (keyed l) as [kl' | e]; [| discriminate].
    injection H as <-. f_equal. now apply IH.
Qed.

Lemma decorated_forall (l : list (nat * value)) :
  Forall (fun p => fst p = rank (snd (snd p))) (map (fun x => (rank (snd x), x)) l).
Proof. induction l; cbn; constructor; auto. Qed.

Lemma sorted_undecorate (kl : list (Z * (nat * value))) :
  Forall (fun p => fst p = rank (snd (snd p))) kl ->
  Sorted by_key kl ->
  Sorted (fun a b => rank (snd a) <= rank (snd b)) (map snd kl).
Proof.
  induction kl as [| p kl IH]; intros Hf Hs; cbn; [constructor |].
  inversion Hf as [| ? ? Hp Hf']; subst. inversion Hs as [| ? ? Hs' Hh]; subst.
  constructor; [now apply IH |].
  destruct kl as [| q kl]; cbn; constructor.
  inversion Hh; subst. inversion Hf'; subst. unfold by_key in *. congruence.
Qed.

Lemma filter_undecorate k (kl : list (Z * (nat * value))) :
  Forall (fun p => fst p = rank (snd (snd p))) kl ->
  filter (fun x => rank (snd x) =? k) (map snd kl)
  = map snd (filter (fun p => fst p =? k) kl).
Proof.
  induction kl as [| p kl IH]; intros Hf; [reflexivity |].
  inversion Hf as [| ? ? Hp Hf']; subst. cbn. rewrite <- Hp.
  destruct (fst p =? k); cbn; now rewrite IH.
Qed.

(** X19.  When the pending list is built, it holds the pending entries of
    the collection, each once, ordered by priority key (high, medium, low,
    anything else), and the entries of one key keep the order they have in
    the collection. *)
Theorem pending_tasks_sorted :
  forall all_tasks l,
    pending_tasks all_tasks = Return l ->
    exists pend,
      pending_from 0 all_tasks = Return pend
      /\ Permutation l pend
      /\ Sorted (fun a b => rank (snd a) <= rank (snd b)) l
      /\ forall k,
           filter (fun x => rank (snd x) =? k) l
           = filter (fun x => rank (snd x) =? k) pend.
Proof.
  intros all_tasks l H. unfold pending_tasks in H.
  destruct (pending_from 0 all_tasks) as [pend | e]; [| discriminate].
  destruct (keyed pend) as [kl | e] eqn:K; [| discriminate].
  injection H as <-. apply keyed_spec in K. subst kl.
  set (kl := map (fun x => (rank (snd x), x)) pend).
  assert (Hpend : map snd kl = pend).
  { unfold kl. rewrite map_map. cbn. apply map_id. }
  assert (Hf : Forall (fun p => fst p = rank (snd (snd p))) (sort kl)).
  { apply (Permutation_Forall (Permutation_sym (sort_perm kl))).
    apply decorated_forall. }
  exists pend. split; [reflexivity |]. split; [| split].
  - apply Permutation_trans with (map snd kl);
      [apply Permutation_map, sort_perm | now rewrite Hpend].
  - apply sorted_undecorate; [exact Hf | apply sort_sorted].
  - intros k. rewrite (filter_undecorate k _ Hf), sort_filter.
    rewrite <- (filter_undecorate k kl (decorated_forall pend)). now rewrite Hpend.
Qed.

Lemma pending_tasks_sorted_witness :
  (exists l, pending_tasks demo_board = Return l /\ map fst l = [2; 0; 3]%nat)
  /\ exists l pend,
       pending_tasks demo_board = Return l
       /\ pending_from 0 demo_board = Return pend
       /\ Permutation l pend.
Proof.
  split; [eexists; split; reflexivity |].
  destruct (pending_tasks_sorted demo_board
              (map snd (sort (map (fun x => (rank (snd x), x))
                                  [(0%nat, nth 0 demo_board VNone);
                                   (2%nat, nth 2 demo_board VNone);
                                   (3%nat, nth 3 demo_board VNone)])))
              eq_refl) as (pend & Hp & Hperm & _).
  eexists. exists pend. split; [reflexivity | split; [exact Hp | exact Hperm]].
Defined.

Lemma pending_from_spec tasks :
  forall i0 pend,
    pending_from i0 tasks = Return pend ->
    forall i t,
      In (i, t) pend <->
      (i0 <= i)%nat /\ nth_error tasks (i - i0) = Some t
      /\ field_is "status" "pending" t = Return true.
Proof.
  induction tasks as [| x rest IH]; intros i0 pend H i t; cbn [pending_from] in H.
  - injection H as <-. split; [intros [] | intros (_ & Hn & _)].
    destruct (i - i0)%nat; discriminate Hn.
  - destruct (field_is "status" "pending" x) as [b | e] eqn:F; [| discriminate].
    destruct (pending_from (S i0) rest) as [l | e] eqn:P; [| discriminate].
    injection H as <-. specialize (IH (S i0) l P i t).
    assert (Hrest : (S i0 <= i)%nat /\ nth_error rest (i - S i0) = Some t
                    /\ field_is "status" "pending" t = Return true
                    <-> (i0 < i)%nat /\ nth_error (x :: rest) (i - i0) = Some t
                        /\ field_is "status" "pending" t = Return true).
    { split; intros (H1 & H2 & H3); (split; [lia |]); split; auto.
      - replace (i - i0)%nat with (S (i - S i0)) by lia. exact H2.
      - replace (i - i0)%nat with (S (i - S i0)) in H2 by lia. exact H2. }
    assert (Hhead : (i0, x) = (i, t) /\ b = true
                    <-> i = i0 /\ nth_error (x :: rest) (i - i0) = Some t
                        /\ field_is "status" "pending" t = Return true).
    { split.
      - intros [E ->]. injection E as <- <-. rewrite Nat.sub_diag. auto.
      - intros (-> & H2 & H3). rewrite Nat.sub_diag in H2. injection H2 as <-.
        rewrite F in H3. injection H3 as ->. auto. }
    destruct b; cbn [In]; rewrite IH, Hrest.
    + split.
      * intros [E | (H1 & H2 & H3)].
        -- destruct (proj1 Hhead (conj E eq_refl)) as (-> & H2 & H3). auto.
        -- split; [lia | auto].
      * intros (H1 & H2 & H3).
        destruct (Nat.eq_dec i i0) as [-> | Hne].
        -- left. now apply Hhead.
        -- right. split; [lia | auto].
    + split.
      * intros (H1 & H2 & H3). split; [lia | auto].
      * intros (H1 & H2 & H3).
        destruct (Nat.eq_dec i i0) as [-> | Hne].
        -- destruct (proj2 Hhead (conj eq_refl (conj H2 H3))). discriminate.
        -- split; [lia | auto].
Qed.

Lemma pending_tasks_sorted_aux all_tasks l :
  pending_tasks all_tasks = Return l ->
  exists pend, pending_from 0 all_tasks = Return pend /\ Permutation l pend.
Proof.
  intros H. unfold pending_tasks in H.
  destruct (pending_from 0 all_tasks) as [pend | e]; [| discriminate].
  destruct (keyed pend) as [kl | e] eqn:K; [| discriminate].
  injection H as <-. apply keyed_spec in K. subst kl.
  exists pend. split; [reflexivity |].
  set (kl := map (fun x => (rank (snd x), x)) pend).
  assert (Hpend : map snd kl = pend).
  { unfold kl. rewrite map_map. cbn. apply map_id. }
  apply Permutation_trans with (map snd kl);
    [apply Permutation_map, sort_perm | now rewrite Hpend].
Qed.

Lemma pending_tasks_in all_tasks l :
  pending_tasks all_tasks = Return l ->
  forall i t,
    In (i, t) l <->
    nth_error all_tasks i = Some t /\ field_is "status" "pending" t = Return true.
Proof.
  intros H i t.
  destruct (pending_tasks_sorted_aux all_tasks l H) as (pend & Hp & Hperm).
  pose proof (pending_from_spec all_tasks 0 pend Hp i t) as Hs.
  rewrite Nat.sub_0_r in Hs.
  split.
  - intros Hin. apply (Permutation_in _ Hperm) in Hin. apply Hs in Hin. tauto.
  - intros [H1 H2]. apply (Permutation_in _ (Permutation_sym Hperm)).
    apply Hs. repeat split; [lia | auto | auto].
Qed.

(** X20.  An entry [(i, t)] is in the pending list exactly when [t] is the
    [i]-th record of the collection and its status is "pending": the index
    that the buttons of a row act on is the index of the record shown. *)
Theorem pending_tasks_indices :
  forall all_tasks l,
    pending_tasks all_tasks = Return l ->
    forall i t,
      In (i, t) l <->
      nth_error all_tasks i = Some t /\ field_is "status" "pending" t = Return true.
Proof.
  intros all_tasks l H i t.
  destruct (pending_tasks_sorted_aux all_tasks l H) as (pend & Hp & Hperm).
  pose proof (pending_from_spec all_tasks 0 pend Hp i t) as Hs.
  rewrite Nat.sub_0_r in Hs.
  split.
  - intros Hin. apply (Permutation_in _ Hperm) in Hin. apply Hs in Hin. tauto.
  - intros [H1 H2]. apply (Permutation_in _ (Permutation_sym Hperm)).
    apply Hs. repeat split; [lia | auto | auto].
Qed.

Lemma pending_tasks_indices_witness :
  pending_tasks demo_board
  = Return [(2%nat, nth 2 demo_board VNone); (0%nat, nth 0 demo_board VNone);
            (3%nat, nth 3 demo_board VNone)]
  /\ (In (2%nat, nth 2 demo_board VNone)
          [(2%nat, nth 2 demo_board VNone); (0%nat, nth 0 demo_board VNone);
           (3%nat, nth 3 demo_board VNone)]
      <-> nth_error demo_board 2 = Some (nth 2 demo_board VNone)
          /\ field_is "status" "pending" (nth 2 demo_board VNone) = Return true).
Proof.
  split; [reflexivity |].
  exact (pending_tasks_indices demo_board _ eq_refl 2%nat (nth 2 demo_board VNone)).
Defined.

Lemma select_spec key text tasks :
  forall c, select key text tasks = Return c ->
            forall t, In t c <-> In t tasks /\ field_is key text t = Return true.
Proof.
  induction tasks as [| x rest IH]; intros c H t; cbn [select] in H.
  - injection H as <-. cbn. tauto.
  - destruct (field_is key text x) as [b | e] eqn:F; [| discriminate].
    destruct (select key text rest) as [l | e] eqn:Sel; [| discriminate].
    injection H as <-. specialize (IH l eq_refl t).
    destruct b; cbn [In]; rewrite IH; split.
    + intros [<- | [H1 H2]]; auto.
    + intros [[<- | H1] H2]; auto.
    + intros [H1 H2]; auto.
    + intros [[<- | H1] H2]; [rewrite F in H2; discriminate | auto].
Qed.

Lemma pending_completed_lengths tasks :
  forall i0 pend c,
    pending_from i0 tasks = Return pend ->
    select "status" "completed" tasks = Return c ->
    (length pend + length c <= length tasks)%nat.
Proof.
  induction tasks as [| x rest IH]; intros i0 pend c Hp Hc;
    cbn [pending_from select] in *.
  - injection Hp as <-. injection Hc as <-. cbn. lia.
  - destruct (field_is "status" "pending" x) as [b1 | e] eqn:F1; [| discriminate].
    destruct (field_is "status" "completed" x) as [b2 | e] eqn:F2; [| discriminate].
    destruct (pending_from (S i0) rest) as [p |] eqn:P; [| discriminate].
    destruct (select "status" "completed" rest) as [l |] eqn:Sel; [| discriminate].
    injection Hp as <-. injection Hc as <-.
    specialize (IH (S i0) p l P eq_refl).
    assert (Hex : b1 && b2 = false).
    { unfold field_is in F1, F2. destruct x as [| | | | | d]; try discriminate.
      injection F1 as <-. injection F2 as <-.
      destruct (dict_get "status" d) as [[| | | s | |] |]; try reflexivity.
      destruct (s =? "pending")%string eqn:E; [| reflexivity].
      apply String.eqb_eq in E. now subst s. }
    destruct b1, b2; try discriminate Hex; cbn [length]; lia.
Qed.

(** X21.  In the daily summary, the pending and the completed count
    together never exceed the total: no record is counted twice. *)
Theorem summary_counts :
  forall all_tasks l c,
    pending_tasks all_tasks = Return l ->
    completed_tasks all_tasks = Return c ->
    (length l + length c <= length all_tasks)%nat.
Proof.
  intros all_tasks l c Hl Hc.
  destruct (pending_tasks_sorted_aux all_tasks l Hl) as (pend & Hp & Hperm).
  rewrite (Permutation_length Hperm).
  now apply (pending_completed_lengths all_tasks 0 pend c).
Qed.

Lemma summary_counts_witness :
  (pending_tasks demo_board
   = Return [(2%nat, nth 2 demo_board VNone); (0%nat, nth 0 demo_board VNone);
             (3%nat, nth 3 demo_board VNone)]
   /\ completed_tasks demo_board = Return [nth 1 demo_board VNone])
  /\ (3 + 1 <= length demo_board)%nat.
Proof.
  split; [split; reflexivity |].
  exact (summary_counts demo_board _ _ eq_refl eq_refl).
Defined.

(** What a successful [mark_complete] leaves in the record. *)
Lemma mark_complete_effect st now ref note :
  succeeded (fst (mark_complete st now ref note)) = true ->
  exists n tasks d d',
    _find_task_index st ref = Ok (Some (Z.of_nat n))
    /\ nth_error tasks n = Some (VDict d)
    /\ snd (mark_complete st now ref note) = Stored (list_set n (VDict d') tasks)
    /\ dict_get "status" d' = Some (VStr "completed")
    /\ dict_get "completed_date" d' = Some (VStr (strftime_full now)).
Proof.
  unfold mark_complete.
  destruct (locate st ref) as [[[[idx tasks] t] |] | e] eqn:L; try discriminate.
  apply ActionProps.locate_some in L. destruct L as (n & -> & Hl & Hf & Hn).
  rewrite Nat2Z.id.
  destruct t as [| | | | | d]; try discriminate.
  assert (H1 : dict_get "status"
                 (dict_set "completed_date" (VStr (strftime_full now))
                    (dict_set "status" (VStr "completed") d))
               = Some (VStr "completed")).
  { rewrite ActionProps.dict_get_set_ne by reflexivity.
    apply ActionProps.dict_get_set_eq. }
  pose proof (ActionProps.dict_get_set_eq "completed_date" (VStr (strftime_full now))
                (dict_set "status" (VStr "completed") d)) as H2.
  assert (Hc : forall d',
             dict_get "status" d' = Some (VStr "completed") ->
             dict_get "completed_date" d' = Some (VStr (strftime_full now)) ->
             let call := commit st (list_set n (VDict d') tasks)
                                (mk_outcome true "Task marked complete" (Some (Z.of_nat n))) in
             succeeded (fst call) = true ->
             exists n0 tasks0 d0 d0',
               _find_task_index st ref = Ok (Some (Z.of_nat n0))
               /\ nth_error tasks0 n0 = Some (VDict d0)
               /\ snd call = Stored (list_set n0 (VDict d0') tasks0)
               /\ dict_get "status" d0' = Some (VStr "completed")
               /\ dict_get "completed_date" d0' = Some (VStr (strftime_full now))).
  { intros d' Hs Hd call. subst call.
    destruct (ActionProps.commit_cases st (list_set n (VDict d') tasks)
                (mk_outcome true "Task marked complete" (Some (Z.of_nat n))))
      as [E | [E | E]]; rewrite E; cbn [fst snd succeeded]; try discriminate.
    intros _. exists n, tasks, d, d'. auto. }
  cbv zeta in Hc.
  destruct note as [text |].
  - destruct (PyMore.truthy (Some text)).
    + destruct (setdefault_append _ _ _) as [d3 |] eqn:S; [| discriminate].
      apply Hc.
      * now rewrite (ActionProps.setdefault_append_frame _ _ _ _ "status" S).
      * now rewrite (ActionProps.setdefault_append_frame _ _ _ _ "completed_date" S).
    + now apply Hc.
  - now apply Hc.
Qed.

(** X14.  After a successful [mark_complete] the record that the reference
    resolves to has the status "completed" and the stamp of the call; on
    the dashboard it is no longer among the pending tasks and it is among
    the completed ones. *)
Theorem completed_task_moves :
  forall st now ref note,
    succeeded (fst (mark_complete st now ref note)) = true ->
    exists n tasks',
      _find_task_index st ref = Ok (Some (Z.of_nat n))
      /\ load_tasks (snd (mark_complete st now ref note)) = Ok tasks'
      /\ cell tasks' n "status" = Some (VStr "completed")
      /\ cell tasks' n "completed_date" = Some (VStr (strftime_full now))
      /\ (forall l, pending_tasks tasks' = Return l -> ~ In n (map fst l))
      /\ (forall c, completed_tasks tasks' = Return c ->
                    exists t, nth_error tasks' n = Some t /\ In t c).
Proof.
  intros st now ref note H.
  destruct (mark_complete_effect st now ref note H)
    as (n & tasks & d & d' & Hf & Hn & Hst & Hs & Hd).
  exists n, (list_set n (VDict d') tasks). rewrite Hst. cbn [load_tasks].
  pose proof (ActionProps.nth_error_list_set_eq n (VDict d') _ tasks Hn) as Hn'.
  unfold cell. rewrite Hn'.
  repeat split; auto.
  - intros l Hl Hin. apply in_map_iff in Hin. destruct Hin as ([i t] & Hi & Hin).
    cbn [fst] in Hi. subst i.
    apply (pending_tasks_in _ _ Hl) in Hin.
    destruct Hin as [Ht Hp]. rewrite Hn' in Ht. injection Ht as <-.
    unfold field_is in Hp. rewrite Hs in Hp. discriminate Hp.
  - intros c Hc. exists (VDict d'). split; [reflexivity |].
    apply (select_spec _ _ _ c Hc). split; [now apply nth_error_In with n |].
    unfold field_is. now rewrite Hs.
Qed.

Lemma completed_task_moves_witness :
  succeeded (fst (mark_complete (Stored demo_board) Conditions.demo_now (RefInt 2) None))
  = true
  /\ exists n tasks',
       _find_task_index (Stored demo_board) (RefInt 2) = Ok (Some (Z.of_nat n))
       /\ load_tasks (snd (mark_complete (Stored demo_board) Conditions.demo_now
                             (RefInt 2) None)) = Ok tasks'
       /\ cell tasks' n "status" = Some (VStr "completed").
Proof.
  split; [reflexivity |].
  destruct (completed_task_moves (Stored demo_board) Conditions.demo_now (RefInt 2) None
              eq_refl) as (n & tasks' & H1 & H2 & H3 & _).
  exists n, tasks'. auto.
Defined.

(** X22.  For an index within the collection, [mark_complete] without a
    note, called with that index, and the button "Mark Done" of the
    dashboard change the collection alike: where every text of the changed
    collection can be encoded, the agent reports success and its file loads
    to the list that the dashboard holds after its call; where one cannot,
    the agent raises [UnicodeEncodeError] from its write and leaves a file
    that is no JSON; on a record that is no dictionary both raise
    [TypeError] and the agent writes nothing. *)
Theorem mark_done_agrees :
  forall all_tasks now i,
    0 <= i < len all_tasks ->
    match mark_task_complete all_tasks now i with
    | Return all_tasks' =>
        if forallb encodable all_tasks' then
          fst (mark_complete (Stored all_tasks) now (RefInt i) None)
          = Return (mk_outcome true "Task marked complete" (Some i))
          /\ load_tasks (snd (mark_complete (Stored all_tasks) now (RefInt i) None))
             = Ok all_tasks'
        else
          mark_complete (Stored all_tasks) now (RefInt i) None
          = (Throw (Builtin UnicodeEncodeError), Garbled)
    | Throw e =>
        mark_complete (Stored all_tasks) now (RefInt i) None = (Throw e, Stored all_tasks)
    end.
Proof.
  intros all_tasks now i Hi.
  unfold mark_complete, locate, _find_task_index, mark_task_complete, assign, position.
  cbn [load_tasks bind].
  rewrite (StoreProps.in_bounds_true i (len all_tasks) Hi). cbn [bind].
  unfold item.
  destruct (nth_error all_tasks (Z.to_nat i)) as [t |] eqn:Hn.
  - cbn [bind]. destruct t; try reflexivity.
    cbn [fold_left fst snd]. unfold commit, save_tasks.
    destruct (forallb encodable _); [split; reflexivity | reflexivity].
  - apply nth_error_None in Hn. unfold len in Hi. lia.
Qed.

Lemma mark_done_agrees_witness :
  0 <= 0 < len demo_board
  /\ fst (mark_complete (Stored demo_board) Conditions.demo_now (RefInt 0) None)
     = Return (mk_outcome true "Task marked complete" (Some 0))
  /\ load_tasks (snd (mark_complete (Stored demo_board) Conditions.demo_now (RefInt 0) None))
     = Ok (list_set 0
             (VDict [("task", VStr "a"); ("status", VStr "completed");
                     ("priority", VStr "low");
                     ("completed_date", VStr "2026-11-03 09:30:00")])
             demo_board).
Proof.
  assert (H : 0 <= 0 < len demo_board) by (unfold len; simpl; lia).
  split; [exact H |].
  exact (mark_done_agrees demo_board Conditions.demo_now 0 H).
Defined.

(** Outside the collection the two differ: the dashboard counts a negative
    index from the end, the agent reports that the task was not found. *)
Example mark_done_negative_index :
  (exists l, mark_task_complete demo_board Conditions.demo_now (-1) = Return l
             /\ cell l 3 "status" = Some (VStr "completed"))
  /\ mark_complete (Stored demo_board) Conditions.demo_now (RefInt (-1)) None
     = (Return not_found, Stored demo_board)
  /\ mark_task_complete demo_board Conditions.demo_now 4 = Throw (Builtin IndexError).
Proof. split; [eexists; split; reflexivity | split; reflexivity]. Qed.

(** The dashboard reads the file without a guard: a file that the agent
    takes for an empty collection stops the page. *)
Example garbled_file_stops_the_dashboard :
  load Garbled = Throw DecodeError /\ load_tasks Garbled = Ok [].
Proof. split; reflexivity. Qed.

End DashboardProps.
